(** * The gridscale server resource: create, update, read and delete

    A shallow embedding of [resourceGridscaleServerCreate],
    [resourceGridscaleServerUpdate], [resourceGridscaleServerRead] and
    [resourceGridscaleServerDelete].  The resource functions talk to the
    gridscale API through [gsclient.Client]; here the client is an arbitrary
    function from the calls issued so far and the next call to a response,
    and every resource function runs in a small monad that records the calls
    in the order they are issued and stops at the first returned error or at
    a run-time panic. *)

From Stdlib Require Import String ZArith List Bool Lia.
Import ListNotations.

Local Open Scope string_scope.
Local Open Scope Z_scope.
Local Open Scope list_scope.

(** ** Data of the schema and of the client library *)

(** One element of the ["storage"] or of the ["network"] collection: the two
    keys of the element map that the resource functions read. *)
Record Attachment := mkAttachment {
  object_uuid : string;
  bootdevice : bool
}.

(** The attributes of the server schema that create and update read. *)
Record Attributes := mkAttributes {
  name : string;
  cores : Z;
  memory : Z;
  location_uuid : string;
  hardware_profile : string;
  availability_zone : string;
  labels : list string;
  storage : list Attachment;
  network : list Attachment;
  ipv4 : string;
  ipv6 : string;
  isoimage : string;
  power : bool;
  legacy : bool
}.

(** [schema.ResourceData]: the resource id, the attributes of the prior
    state and the attributes after the planned change.  [d.Get] reads
    [planned]; [d.GetChange] gives the pair [(prior, planned)]. *)
Record ResourceData := mkResourceData {
  Id : string;
  prior : Attributes;
  planned : Attributes
}.

Inductive ServerHardwareProfile :=
| DefaultServerHardware
| NestedServerHardware
| LegacyServerHardware
| CiscoCSRServerHardware
| SophosUTMServerHardware
| F5BigipServerHardware
| Q35ServerHardware
| Q35NestedServerHardware.

Record ServerCreateRequestStorage := mkCreateStorage {
  StorageUUID : string;
  BootDevice : bool
}.

Record ServerCreateRequestNetwork := mkCreateNetwork {
  NetworkUUID : string;
  NetworkBootDevice : bool
}.

Record ServerCreateRequestIP := mkCreateIP { IPaddrUUID : string }.

Record ServerCreateRequestIsoimage := mkCreateIso { IsoimageUUID : string }.

Record ServerCreateRequestRelations := mkRelations {
  IsoImages : list ServerCreateRequestIsoimage;
  Networks : list ServerCreateRequestNetwork;
  PublicIPs : list ServerCreateRequestIP;
  Storages : list ServerCreateRequestStorage
}.

Record ServerCreateRequest := mkCreateRequest {
  Name : string;
  Cores : Z;
  Memory : Z;
  LocationUUID : string;
  AvailablityZone : string;
  Labels : list string;
  HardwareProfile : ServerHardwareProfile;
  Relations : ServerCreateRequestRelations
}.

Record ServerUpdateRequest := mkUpdateRequest {
  UpdName : string;
  UpdAvailablityZone : string;
  UpdLabels : list string;
  UpdCores : Z;
  UpdMemory : Z
}.

(** Go [error] values: a [gsclient.RequestError] with its status code, any
    other error of the client, and the two errors the create path builds with
    [fmt.Errorf]. *)
Inductive error :=
| RequestError (StatusCode : Z) (description : string)
| ClientError (description : string)
| NotIPVersion (uuid : string) (version : Z)
| WaitingForCreate (server : string) (cause : error).

(** The methods of [gsclient.Client] (the context argument is left out;
    [LinkNetwork] keeps its first five arguments, the last two are [nil] at
    every call site). *)
Inductive Call :=
| GetIPVersion (ip : string)
| GetNetworkPublic
| GetServer (id : string)
| CreateServer (body : ServerCreateRequest)
| UpdateServer (id : string) (body : ServerUpdateRequest)
| DeleteServer (id : string)
| StartServer (id : string)
| StopServer (id : string)
| ShutdownServer (id : string)
| LinkStorage (id storageID : string) (boot : bool)
| UnlinkStorage (id storageID : string)
| LinkNetwork (id networkID firewallTemplate : string) (boot : bool) (order : Z)
| UnlinkNetwork (id networkID : string)
| LinkIP (id ipID : string)
| UnlinkIP (id ipID : string)
| LinkIsoImage (id isoID : string)
| UnlinkIsoImage (id isoID : string).

(** What a client method hands back: the error ([None] is Go's [nil]), the
    object UUID of the answer ([ServerUUID] of [CreateServer],
    [Properties.ObjectUUID] of [GetNetworkPublic]) and the IP version of
    [GetIPVersion]. *)
Record Response := mkResponse {
  resp_err : option error;
  resp_uuid : string;
  resp_version : Z
}.

(** A client answers a call knowing every call issued before it. *)
Definition Client := list Call -> Call -> Response.

(** ** The monad of the resource functions *)

(** How a function ends: with a value, with the error it returns, or with a
    run-time panic, which returns nothing. *)
Inductive Result (A : Type) :=
| Ok (a : A)
| Err (e : error)
| Panic (reason : string).
Arguments Ok {A} a.
Arguments Err {A} e.
Arguments Panic {A} reason.

(** A computation maps the calls issued so far to the calls issued when it
    ends, and how it ends. *)
Definition M (A : Type) := list Call -> list Call * Result A.

Definition ret {A} (a : A) : M A := fun h => (h, Ok a).

Definition raise {A} (e : error) : M A := fun h => (h, Err e).

Definition panic {A} (reason : string) : M A := fun h => (h, Panic reason).

Definition bind {A B} (m : M A) (f : A -> M B) : M B :=
  fun h =>
    match m h with
    | (h', Ok a) => f a h'
    | (h', Err e) => (h', Err e)
    | (h', Panic reason) => (h', Panic reason)
    end.

Notation "x <- m ;; k" := (bind m (fun x => k))
  (at level 61, m at next level, right associativity).
Notation "m ;; k" := (bind m (fun _ => k))
  (at level 61, right associativity).

(** [if err != nil { return err }] *)
Definition checkErr (err : option error) : M unit :=
  match err with
  | Some e => raise e
  | None => ret tt
  end.

(** [for _, value := range l { f value }] *)
Fixpoint forEach {A} (l : list A) (f : A -> M unit) : M unit :=
  match l with
  | [] => ret tt
  | x :: r => f x ;; forEach r f
  end.

Definition trace {A} (x : list Call * Result A) : list Call := fst x.
Definition outcome {A} (x : list Call * Result A) : Result A := snd x.

(** Every call the computation adds, whatever was issued before and
    however it ends, satisfies [P]. *)
Definition emits {A} (P : Call -> Prop) (m : M A) : Prop :=
  forall h, exists l, fst (m h) = h ++ l /\ Forall P l.

(** ** Reading the resource data *)

Definition Attachment_eq_dec (a b : Attachment) : {a = b} + {a <> b}.
Proof. decide equality; [apply bool_dec | apply string_dec]. Defined.

(** [d.HasChange(key)]: the prior and the planned value differ. *)
Definition HasChange {A} (eq_dec : forall x y : A, {x = y} + {x <> y})
    (key : Attributes -> A) (d : ResourceData) : bool :=
  if eq_dec (key (prior d)) (key (planned d)) then false else true.

Definition HasChange_cores := HasChange Z.eq_dec cores.
Definition HasChange_memory := HasChange Z.eq_dec memory.
Definition HasChange_ipv4 := HasChange string_dec ipv4.
Definition HasChange_ipv6 := HasChange string_dec ipv6.
Definition HasChange_isoimage := HasChange string_dec isoimage.
Definition HasChange_storage := HasChange (list_eq_dec Attachment_eq_dec) storage.
Definition HasChange_network := HasChange (list_eq_dec Attachment_eq_dec) network.

(** What [d.Get], [d.GetOk] and [d.GetChange] hand back for a collection:
    a [[]interface{}] when the schema declares the attribute a
    [schema.TypeList], a [*schema.Set] when it declares it a
    [schema.TypeSet]; the elements of a set are listed in the order its
    [List] method yields them. *)
Inductive Collection :=
| ListValue (elements : list Attachment)
| SetValue (elements : list Attachment).

(** ["storage"] is declared [Type: schema.TypeList]. *)
Definition Get_storage (a : Attributes) : Collection := ListValue (storage a).

(** ["network"] is declared [Type: schema.TypeSet]. *)
Definition Get_network (a : Attributes) : Collection := SetValue (network a).

(** The panic of a failed type assertion. *)
Definition notASet : string :=
  "interface conversion: interface {} is []interface {}, not *schema.Set".

(** The type assertion of [attr] to [*schema.Set] followed by [List()]: the
    assertion panics on a value that is no [*schema.Set]. *)
Definition SetList (attr : Collection) : M (list Attachment) :=
  match attr with
  | SetValue elements => ret elements
  | ListValue _ => panic notASet
  end.

(** The [ok] of [d.GetOk(key)]: the value is not the zero value of its
    type. *)
Definition GetOk_string (s : string) : bool := negb (s =? "")%string.
Definition GetOk_list {A} (l : list A) : bool :=
  match l with [] => false | _ :: _ => true end.

(** [convSOStrings]: the elements of the label set as strings. *)
Definition convSOStrings (l : list string) : list string := l.

(** ** The resource functions *)

Section Resource.

Variable client : Client.

(** A call of a client method: it is recorded, and the client's answer is
    handed back. *)
Definition invoke (c : Call) : M Response :=
  fun h => (h ++ [c], Ok (client h c)).

(** [err = client.Method(...)] *)
Definition call (c : Call) : M (option error) :=
  r <- invoke c ;; ret (resp_err r).

(** [resourceGridscaleServerRead]: fetches the server; a 404 request error
    clears the id and is not an error; any other error is returned.  The
    [d.Set] calls that follow a successful fetch issue no client call. *)
Definition resourceGridscaleServerRead (id : string) : M unit :=
  r <- invoke (GetServer id) ;;
  match resp_err r with
  | Some (RequestError StatusCode description) =>
      if StatusCode =? 404 then ret tt
      else raise (RequestError StatusCode description)
  | Some e => raise e
  | None => ret tt
  end.

(** The [hardware_profile] string of the schema as the client's constant. *)
Definition hardwareProfileOf (profile : string) : ServerHardwareProfile :=
  if (profile =? "legacy")%string then LegacyServerHardware
  else if (profile =? "nested")%string then NestedServerHardware
  else if (profile =? "cisco_csr")%string then CiscoCSRServerHardware
  else if (profile =? "sophos_utm")%string then SophosUTMServerHardware
  else if (profile =? "f5_bigip")%string then F5BigipServerHardware
  else if (profile =? "q35")%string then Q35ServerHardware
  else if (profile =? "q35_nested")%string then Q35NestedServerHardware
  else DefaultServerHardware.

(** The body of the first loop over ["storage"] of the create path, run over
    the elements the type assertion hands over: the bootable storages are
    appended to [requestBody.Relations.Storages]. *)
Definition createStorages (l : list Attachment) : list ServerCreateRequestStorage :=
  fold_left
    (fun acc storage =>
       if bootdevice storage
       then acc ++ [mkCreateStorage (object_uuid storage) (bootdevice storage)]
       else acc)
    l [].

(** The ["ipv4"] and ["ipv6"] blocks of the create path: the version of the
    address is checked against the client before the address is appended to
    [requestBody.Relations.PublicIPs]. *)
Definition createPublicIP (attr : string) (version : Z)
    (acc : list ServerCreateRequestIP) : M (list ServerCreateRequestIP) :=
  if GetOk_string attr then
    r <- invoke (GetIPVersion attr) ;;
    if negb (resp_version r =? version) then raise (NotIPVersion attr version)
    else ret (acc ++ [mkCreateIP attr])
  else ret acc.

(** The loop over ["network"] of the create path. *)
Definition createNetworks (acc : list ServerCreateRequestNetwork)
    (l : list Attachment) : list ServerCreateRequestNetwork :=
  fold_left
    (fun acc network =>
       acc ++ [mkCreateNetwork (object_uuid network) (bootdevice network)])
    l acc.

(** The request body of the create path, as it stands when
    [client.CreateServer] is called. *)
Definition createRequestBody (d : ResourceData) : M ServerCreateRequest :=
  let a := planned d in
  storages <-
    (if GetOk_list (storage a) then
       values <- SetList (Get_storage a) ;;
       ret (createStorages values)
     else ret []) ;;
  publicIPs <- createPublicIP (ipv4 a) 4 [] ;;
  publicIPs <- createPublicIP (ipv6 a) 6 publicIPs ;;
  let isoImages :=
    if GetOk_string (isoimage a) then [mkCreateIso (isoimage a)] else [] in
  networks <-
    (if (0 <? Z.of_nat (length publicIPs)) then
       publicNetwork <- invoke GetNetworkPublic ;;
       checkErr (resp_err publicNetwork) ;;
       ret [mkCreateNetwork (resp_uuid publicNetwork) false]
     else ret []) ;;
  networks <-
    (if GetOk_list (network a) then
       values <- SetList (Get_network a) ;;
       ret (createNetworks networks values)
     else ret networks) ;;
  ret (mkCreateRequest (name a) (cores a) (memory a) (location_uuid a)
         (availability_zone a) (convSOStrings (labels a))
         (hardwareProfileOf (hardware_profile a))
         (mkRelations isoImages networks publicIPs storages)).

(** [//Add the rest of the storages] *)
Definition createLinkStorages (d : ResourceData) (id : string) : M unit :=
  let a := planned d in
  if GetOk_list (storage a) then
    values <- SetList (Get_storage a) ;;
    forEach values (fun storage =>
      if negb (bootdevice storage) then
        err <- call (LinkStorage id (object_uuid storage) (bootdevice storage)) ;;
        checkErr err
      else ret tt)
  else ret tt.

Definition resourceGridscaleServerCreate (d : ResourceData) : M unit :=
  requestBody <- createRequestBody d ;;
  response <- invoke (CreateServer requestBody) ;;
  match resp_err response with
  | Some err => raise (WaitingForCreate (Name requestBody) err)
  | None =>
      let id := resp_uuid response in
      createLinkStorages d id ;;
      (if power (planned d) then _ <- call (StartServer id) ;; ret tt
       else ret tt) ;;
      resourceGridscaleServerRead id
  end.

Definition resourceGridscaleServerDelete (d : ResourceData) : M unit :=
  err <- call (StopServer (Id d)) ;;
  checkErr err ;;
  err <- call (DeleteServer (Id d)) ;;
  checkErr err.

(** The [shutdownRequired] flag of the update path, as it stands when the
    three [HasChange] blocks have run. *)
Definition shutdownRequired (d : ResourceData) : bool :=
  let shutdownRequired := false in
  let shutdownRequired :=
    if HasChange_cores d then
      if (cores (planned d) <? cores (prior d)) || legacy (planned d)
      then true else shutdownRequired
    else shutdownRequired in
  let shutdownRequired :=
    if HasChange_memory d then
      if (memory (planned d) <? memory (prior d)) || legacy (planned d)
      then true else shutdownRequired
    else shutdownRequired in
  if HasChange_ipv4 d || HasChange_ipv6 d || HasChange_storage d
     || HasChange_network d
  then true else shutdownRequired.

(** [//Link/unlink isoimages] *)
Definition updateIsoimage (d : ResourceData) : M unit :=
  if HasChange_isoimage d then
    let oldIso := isoimage (prior d) in
    let newIso := isoimage (planned d) in
    err <- (if (newIso =? "")%string
            then call (UnlinkIsoImage (Id d) oldIso)
            else call (UnlinkIsoImage (Id d) newIso)) ;;
    checkErr err
  else ret tt.

(** [//Link/Unlink ip addresses]: the block of one family.  The source has
    the block twice, for ["ipv4"] and for ["ipv6"]; [needsPublicNetwork] is the
    local variable both blocks write. *)
Definition updateIP (d : ResourceData) (hasChange : bool) (oldIp newIp : string)
    (needsPublicNetwork : bool) : M bool :=
  if hasChange then
    err <- (if (newIp =? "")%string
            then call (UnlinkIP (Id d) oldIp)
            else call (LinkIP (Id d) newIp)) ;;
    checkErr err ;;
    ret (if negb (oldIp =? "")%string then false else needsPublicNetwork)
  else ret needsPublicNetwork.

(** [//Disconnect from the public network if there is no longer and IP] and
    [//Connect to the public network if an IP was added] *)
Definition updatePublicNetwork (d : ResourceData) (needsPublicNetwork : bool)
    : M unit :=
  (if (HasChange_ipv6 d || HasChange_ipv4 d)
      && (ipv6 (planned d) =? "")%string && (ipv4 (planned d) =? "")%string
   then
     publicNetwork <- invoke GetNetworkPublic ;;
     checkErr (resp_err publicNetwork) ;;
     err <- call (UnlinkNetwork (Id d) (resp_uuid publicNetwork)) ;;
     checkErr err
   else ret tt) ;;
  (if (HasChange_ipv6 d || HasChange_ipv4 d) && needsPublicNetwork
   then
     publicNetwork <- invoke GetNetworkPublic ;;
     checkErr (resp_err publicNetwork) ;;
     err <- call (LinkNetwork (Id d) (resp_uuid publicNetwork) "" false 0) ;;
     checkErr err
   else ret tt).

(** [//Link/unlink networks] *)
Definition updateNetworks (d : ResourceData) : M unit :=
  if HasChange_network d then
    let oldNetworks := Get_network (prior d) in
    let newNetworks := Get_network (planned d) in
    values <- SetList oldNetworks ;;
    forEach values (fun network =>
      if negb (object_uuid network =? "")%string then
        err <- call (UnlinkNetwork (Id d) (object_uuid network)) ;;
        checkErr err
      else ret tt) ;;
    values <- SetList newNetworks ;;
    forEach values (fun network =>
      if negb (object_uuid network =? "")%string then
        err <- call (LinkNetwork (Id d) (object_uuid network) ""
                       (bootdevice network) 0) ;;
        checkErr err
      else ret tt)
  else ret tt.

(** The inner loops of the storage block: the flag starts [true] and the
    loop over [others] clears it, and breaks, at the first element with the
    same ["object_uuid"]. *)
Fixpoint noneWithUUID (uuid : string) (others : list Attachment) : bool :=
  match others with
  | [] => true
  | other :: rest =>
      if (uuid =? object_uuid other)%string then false
      else noneWithUUID uuid rest
  end.

(** [//Link/unlink storages]: each loop header asserts that the collection
    it ranges over is a [*schema.Set]. *)
Definition updateStorages (d : ResourceData) : M unit :=
  if HasChange_storage d then
    let oldStorages := Get_storage (prior d) in
    let newStorages := Get_storage (planned d) in
    values <- SetList oldStorages ;;
    forEach values (fun oldStorage =>
      others <- SetList newStorages ;;
      let unlink := noneWithUUID (object_uuid oldStorage) others in
      if unlink then
        err <- call (UnlinkStorage (Id d) (object_uuid oldStorage)) ;;
        checkErr err
      else ret tt) ;;
    values <- SetList newStorages ;;
    forEach values (fun newStorage =>
      others <- SetList oldStorages ;;
      let link := noneWithUUID (object_uuid newStorage) others in
      if link then
        err <- call (LinkStorage (Id d) (object_uuid newStorage)
                       (bootdevice newStorage)) ;;
        checkErr err
      else ret tt)
  else ret tt.

Definition resourceGridscaleServerUpdate (d : ResourceData) : M unit :=
  let a := planned d in
  let requestBody :=
    mkUpdateRequest (name a) (availability_zone a) (convSOStrings (labels a))
      (cores a) (memory a) in
  (if shutdownRequired d then
     err <- call (ShutdownServer (Id d)) ;; checkErr err
   else ret tt) ;;
  err <- call (UpdateServer (Id d) requestBody) ;;
  checkErr err ;;
  updateIsoimage d ;;
  needsPublicNetwork <-
    updateIP d (HasChange_ipv4 d) (ipv4 (prior d)) (ipv4 a) true ;;
  needsPublicNetwork <-
    updateIP d (HasChange_ipv6 d) (ipv6 (prior d)) (ipv6 a) needsPublicNetwork ;;
  updatePublicNetwork d needsPublicNetwork ;;
  updateNetworks d ;;
  updateStorages d ;;
  err <- (if power a then call (StartServer (Id d))
          else call (ShutdownServer (Id d))) ;;
  checkErr err ;;
  resourceGridscaleServerRead (Id d).

End Resource.

(** ** Concrete inputs *)

(** A client whose every call succeeds; it names the created server
    ["srv"] and the public network ["public"], and reports the version of an
    address from the first character of its UUID. *)
Definition okClient : Client :=
  fun _ c =>
    match c with
    | CreateServer _ => mkResponse None "srv" 0
    | GetNetworkPublic => mkResponse None "public" 0
    | GetIPVersion ip =>
        mkResponse None "" (if String.prefix "6" ip then 6 else 4)
    | _ => mkResponse None "" 0
    end.

Definition emptyAttributes : Attributes :=
  mkAttributes "" 0 0 "" "" "" [] [] [] "" "" "" false false.

Definition baseAttributes : Attributes :=
  mkAttributes "web" 4 4 "loc" "default" "" [] [] [] "" "" "" true false.

Definition withStorage (l : list Attachment) (a : Attributes) : Attributes :=
  mkAttributes (name a) (cores a) (memory a) (location_uuid a)
    (hardware_profile a) (availability_zone a) (labels a) l (network a)
    (ipv4 a) (ipv6 a) (isoimage a) (power a) (legacy a).

Definition withNetwork (l : list Attachment) (a : Attributes) : Attributes :=
  mkAttributes (name a) (cores a) (memory a) (location_uuid a)
    (hardware_profile a) (availability_zone a) (labels a) (storage a) l
    (ipv4 a) (ipv6 a) (isoimage a) (power a) (legacy a).

Definition withIPs (v4 v6 : string) (a : Attributes) : Attributes :=
  mkAttributes (name a) (cores a) (memory a) (location_uuid a)
    (hardware_profile a) (availability_zone a) (labels a) (storage a)
    (network a) v4 v6 (isoimage a) (power a) (legacy a).

Definition withIsoimage (iso : string) (a : Attributes) : Attributes :=
  mkAttributes (name a) (cores a) (memory a) (location_uuid a)
    (hardware_profile a) (availability_zone a) (labels a) (storage a)
    (network a) (ipv4 a) (ipv6 a) iso (power a) (legacy a).

Definition withSize (c m : Z) (a : Attributes) : Attributes :=
  mkAttributes (name a) c m (location_uuid a)
    (hardware_profile a) (availability_zone a) (labels a) (storage a)
    (network a) (ipv4 a) (ipv6 a) (isoimage a) (power a) (legacy a).

Definition create (d : ResourceData) (client : Client) :=
  resourceGridscaleServerCreate client d [].

Definition update (d : ResourceData) (client : Client) :=
  resourceGridscaleServerUpdate client d [].

(** ** The calls of a successful update, written out *)

Definition shutdownCalls (d : ResourceData) : list Call :=
  if shutdownRequired d then [ShutdownServer (Id d)] else [].

Definition attributeCalls (d : ResourceData) : list Call :=
  let a := planned d in
  [UpdateServer (Id d)
     (mkUpdateRequest (name a) (availability_zone a) (labels a) (cores a)
        (memory a))].

Definition isoimageCalls (d : ResourceData) : list Call :=
  if HasChange_isoimage d then
    [UnlinkIsoImage (Id d)
       (if (isoimage (planned d) =? "")%string then isoimage (prior d)
        else isoimage (planned d))]
  else [].

Definition ipCalls (d : ResourceData) (hasChange : bool) (oldIp newIp : string)
    : list Call :=
  if hasChange then
    [if (newIp =? "")%string then UnlinkIP (Id d) oldIp
     else LinkIP (Id d) newIp]
  else [].

(** The value of [needsPublicNetwork] after both address blocks: no changed
    family had an address before. *)
Definition needsPublicNetwork (d : ResourceData) : bool :=
  negb (HasChange_ipv4 d && negb (ipv4 (prior d) =? "")%string)
  && negb (HasChange_ipv6 d && negb (ipv6 (prior d) =? "")%string).

Definition unlinksPublicNetwork (d : ResourceData) : bool :=
  (HasChange_ipv6 d || HasChange_ipv4 d)
  && (ipv6 (planned d) =? "")%string && (ipv4 (planned d) =? "")%string.

Definition linksPublicNetwork (d : ResourceData) : bool :=
  (HasChange_ipv6 d || HasChange_ipv4 d) && needsPublicNetwork d.

(** The calls of the public-network blocks when they start after the calls
    [h]; the UUID of the public network is the one the client answers. *)
Definition publicNetworkCalls (client : Client) (d : ResourceData)
    (h : list Call) : list Call :=
  let unlink :=
    if unlinksPublicNetwork d then
      [GetNetworkPublic;
       UnlinkNetwork (Id d) (resp_uuid (client h GetNetworkPublic))]
    else [] in
  let link :=
    if linksPublicNetwork d then
      [GetNetworkPublic;
       LinkNetwork (Id d)
         (resp_uuid (client (h ++ unlink) GetNetworkPublic)) "" false 0]
    else [] in
  unlink ++ link.

Definition hasUUID (a : Attachment) : bool := negb (object_uuid a =? "")%string.

Definition networkCalls (d : ResourceData) : list Call :=
  if HasChange_network d then
    map (fun n => UnlinkNetwork (Id d) (object_uuid n))
      (filter hasUUID (network (prior d)))
    ++ map (fun n => LinkNetwork (Id d) (object_uuid n) "" (bootdevice n) 0)
         (filter hasUUID (network (planned d)))
  else [].

(** What the loops of the storage block are written to unlink and to link:
    the elements of [old] whose ["object_uuid"] is absent from [new], and
    the other way round.  Where the storage list did not change there is
    none, and where it changed the block panics before it gets to them. *)
Definition absentFrom (l : list Attachment) (a : Attachment) : bool :=
  negb (existsb (fun b => (object_uuid a =? object_uuid b)%string) l).

Definition toRemove (old new : list Attachment) : list Attachment :=
  filter (absentFrom new) old.

Definition toAdd (old new : list Attachment) : list Attachment :=
  filter (absentFrom old) new.

Definition storageCalls (d : ResourceData) : list Call :=
  map (fun o => UnlinkStorage (Id d) (object_uuid o))
    (toRemove (storage (prior d)) (storage (planned d)))
  ++ map (fun n => LinkStorage (Id d) (object_uuid n) (bootdevice n))
       (toAdd (storage (prior d)) (storage (planned d))).

Definition powerCalls (d : ResourceData) : list Call :=
  [if power (planned d) then StartServer (Id d) else ShutdownServer (Id d)].

Definition callsBeforeNetworks (client : Client) (d : ResourceData) : list Call :=
  let h :=
    shutdownCalls d ++ attributeCalls d ++ isoimageCalls d
    ++ ipCalls d (HasChange_ipv4 d) (ipv4 (prior d)) (ipv4 (planned d))
    ++ ipCalls d (HasChange_ipv6 d) (ipv6 (prior d)) (ipv6 (planned d)) in
  h ++ publicNetworkCalls client d h.

Definition callsAfterNetworks (d : ResourceData) : list Call :=
  storageCalls d ++ powerCalls d ++ [GetServer (Id d)].

Definition updateCalls (client : Client) (d : ResourceData) : list Call :=
  callsBeforeNetworks client d ++ networkCalls d ++ callsAfterNetworks d.

(** ** Kinds of calls *)

(** The two look-ups of the create path that change nothing remotely. *)
Definition isLookup (c : Call) : bool :=
  match c with
  | GetIPVersion _ | GetNetworkPublic => true
  | _ => false
  end.

Definition isStorageCall (c : Call) : bool :=
  match c with
  | LinkStorage _ _ _ | UnlinkStorage _ _ => true
  | _ => false
  end.

Definition isLinkIsoImage (c : Call) : bool :=
  match c with
  | LinkIsoImage _ _ => true
  | _ => false
  end.

(** Shutdown, start, and every link or unlink call. *)
Definition isPowerOrLinkCall (c : Call) : bool :=
  match c with
  | StartServer _ | StopServer _ | ShutdownServer _
  | LinkStorage _ _ _ | UnlinkStorage _ _
  | LinkNetwork _ _ _ _ _ | UnlinkNetwork _ _
  | LinkIP _ _ | UnlinkIP _ _
  | LinkIsoImage _ _ | UnlinkIsoImage _ _ => true
  | _ => false
  end.

Definition isLinkCall (c : Call) : bool :=
  match c with
  | LinkStorage _ _ _ | UnlinkStorage _ _
  | LinkNetwork _ _ _ _ _ | UnlinkNetwork _ _
  | LinkIP _ _ | UnlinkIP _ _
  | LinkIsoImage _ _ | UnlinkIsoImage _ _ => true
  | _ => false
  end.

Definition count (p : Call -> bool) (t : list Call) : nat :=
  length (filter p t).

(** ** Properties of runs named by the specification *)

(** No shutdown, no start, no link and no unlink call. *)
Definition NoPowerOrLinkCalls (t : list Call) : Prop :=
  Forall (fun c => isPowerOrLinkCall c = false) t.


(** Neither address, nor the storage or network collection changes. *)
Definition noAttachmentChange (d : ResourceData) : Prop :=
  ipv4 (prior d) = ipv4 (planned d) /\ ipv6 (prior d) = ipv6 (planned d)
  /\ storage (prior d) = storage (planned d)
  /\ network (prior d) = network (planned d).

(** The clauses of the power-requirement classifier as the code has them:
    the legacy flag counts together with a change of cores or memory. *)
Definition powerCycleClauses (d : ResourceData) : Prop :=
  cores (planned d) < cores (prior d)
  \/ memory (planned d) < memory (prior d)
  \/ (legacy (planned d) = true
      /\ (cores (prior d) <> cores (planned d)
          \/ memory (prior d) <> memory (planned d)))
  \/ ipv4 (prior d) <> ipv4 (planned d)
  \/ ipv6 (prior d) <> ipv6 (planned d)
  \/ storage (prior d) <> storage (planned d)
  \/ network (prior d) <> network (planned d).

(** A change of one of the attributes [UpdateServer] carries: name, cores,
    memory, availability zone, labels. *)
Definition attributeChange (d : ResourceData) : Prop :=
  name (prior d) <> name (planned d)
  \/ cores (prior d) <> cores (planned d)
  \/ memory (prior d) <> memory (planned d)
  \/ availability_zone (prior d) <> availability_zone (planned d)
  \/ labels (prior d) <> labels (planned d).

(** The clauses of the power-requirement classifier as the specification
    words them: on a legacy server any attribute change counts. *)
Definition claimedPowerCycleClauses (d : ResourceData) : Prop :=
  cores (planned d) < cores (prior d)
  \/ memory (planned d) < memory (prior d)
  \/ (legacy (planned d) = true /\ attributeChange d)
  \/ ipv4 (prior d) <> ipv4 (planned d)
  \/ ipv6 (prior d) <> ipv6 (planned d)
  \/ storage (prior d) <> storage (planned d)
  \/ network (prior d) <> network (planned d).

(** No call links or unlinks the network [uuid]. *)
Definition isNetworkCallOn (uuid : string) (c : Call) : bool :=
  match c with
  | LinkNetwork _ n _ _ _ | UnlinkNetwork _ n => (n =? uuid)%string
  | _ => false
  end.

Definition networkUntouched (uuid : string) (t : list Call) : Prop :=
  Forall (fun c => isNetworkCallOn uuid c = false) t.

(** ** More concrete inputs *)

(** A client that differs from [okClient] in one point: starting a server
    fails. *)
Definition startFailsClient : Client :=
  fun h c =>
    match c with
    | StartServer _ => mkResponse (Some (ClientError "start failed")) "" 0
    | _ => okClient h c
    end.

Definition S1 := mkAttachment "S1" true.
Definition S2 := mkAttachment "S2" false.
Definition S3 := mkAttachment "S3" false.

(** Create: two storages, both marked as boot device. *)
Definition dTwoBoot : ResourceData :=
  mkResourceData "" emptyAttributes
    (withStorage [mkAttachment "S1" true; mkAttachment "S2" true] baseAttributes).

(** Create: one boot storage and two more storages, power on. *)
Definition dThreeStorages : ResourceData :=
  mkResourceData "" emptyAttributes (withStorage [S1; S2; S3] baseAttributes).

(** Create: no relations, power on. *)
Definition dPlain : ResourceData :=
  mkResourceData "" emptyAttributes baseAttributes.

(** Update: the planned attributes are the prior ones. *)
Definition dConverged : ResourceData :=
  mkResourceData "srv" baseAttributes baseAttributes.

(** Update: a legacy server is renamed, nothing else changes. *)
Definition dLegacyName : ResourceData :=
  mkResourceData "srv"
    (mkAttributes "web" 4 4 "loc" "legacy" "" [] [] [] "" "" "" true true)
    (mkAttributes "db" 4 4 "loc" "legacy" "" [] [] [] "" "" "" true true).

(** Update: cores go from 4 to 2, nothing else changes. *)
Definition dCoresDown : ResourceData :=
  mkResourceData "srv" baseAttributes (withSize 2 4 baseAttributes).

(** Update: memory goes from 4 to 8, nothing else changes. *)
Definition dMemoryUp : ResourceData :=
  mkResourceData "srv" baseAttributes (withSize 4 8 baseAttributes).

(** Update: an ISO image is attached to a server that had none. *)
Definition dNewIso : ResourceData :=
  mkResourceData "srv" baseAttributes (withIsoimage "iso-new" baseAttributes).

(** Update: the IPv4 address is replaced by another one. *)
Definition dReplaceIPv4 : ResourceData :=
  mkResourceData "srv" (withIPs "ip4-old" "" baseAttributes)
    (withIPs "ip4-new" "" baseAttributes).

(** Update: an IPv4 address is added, the IPv6 address stays. *)
Definition dAddIPv4 : ResourceData :=
  mkResourceData "srv" (withIPs "" "ip6-x" baseAttributes)
    (withIPs "ip4-a" "ip6-x" baseAttributes).

Definition netA := mkAttachment "A" false.
Definition netB := mkAttachment "B" false.
Definition netC := mkAttachment "C" false.

(** Update: networks [A, B] become [B, C]. *)
Definition dNetworks : ResourceData :=
  mkResourceData "srv" (withNetwork [netA; netB] baseAttributes)
    (withNetwork [netB; netC] baseAttributes).

(** Update: storages [A, B] become [B, C]. *)
Definition dStorages : ResourceData :=
  mkResourceData "srv" (withStorage [netA; netB] baseAttributes)
    (withStorage [netB; netC] baseAttributes).

(** Create: the requested IPv4 address is one [okClient] reports as
    version 6; the requested IPv6 address is one it reports as version 4. *)
Definition dWrongIPv4 : ResourceData :=
  mkResourceData "" emptyAttributes (withIPs "6-address" "" baseAttributes).

Definition dWrongIPv6 : ResourceData :=
  mkResourceData "" emptyAttributes (withIPs "" "4-address" baseAttributes).

(** Create: an IPv4 address and the network [A], no storage. *)
Definition dAddressAndNetwork : ResourceData :=
  mkResourceData "" emptyAttributes
    (withNetwork [netA] (withIPs "4-address" "" baseAttributes)).

(** A client that differs from [okClient] in one point: creating a server
    fails. *)
Definition createFailsClient : Client :=
  fun h c =>
    match c with
    | CreateServer _ => mkResponse (Some (ClientError "quota exceeded")) "" 0
    | _ => okClient h c
    end.

(** A client that differs from [okClient] in one point: the server is gone,
    every call on it is answered with a 404 request error. *)
Definition goneClient : Client :=
  fun h c =>
    match c with
    | StopServer _ | DeleteServer _ | GetServer _ =>
        mkResponse (Some (RequestError 404 "not found")) "" 0
    | _ => okClient h c
    end.

(** The request bodies of the concrete inputs. *)
Definition updateBody (a : Attributes) : ServerUpdateRequest :=
  mkUpdateRequest (name a) (availability_zone a) (labels a) (cores a) (memory a).

Definition createBody (storages : list ServerCreateRequestStorage)
    : ServerCreateRequest :=
  mkCreateRequest "web" 4 4 "loc" "" [] DefaultServerHardware
    (mkRelations [] [] [] storages).

(** ** Runs that stop at the first failing call *)

(** The calls [l] are an initial segment of the calls [L]. *)
Definition initialSegment (l L : list Call) : Prop := exists rest, L = l ++ rest.

(** Started after the calls [h], the computation issues an initial segment of
    [L]; when it returns a value it has issued all of [L] and the value is
    [v]. *)
Definition issuesAt {A} (m : M A) (h L : list Call) (v : A) : Prop :=
  exists l,
    fst (m h) = h ++ l /\ initialSegment l L
    /\ (forall a, snd (m h) = Ok a -> l = L /\ a = v).

(** The errors a resource function lets pass: the read treats a 404 request
    error of [GetServer] as "the server is gone"; the create path, beside
    that, drops whatever [StartServer] returns. *)
Definition readTolerance (c : Call) (e : error) : Prop :=
  exists id description, c = GetServer id /\ e = RequestError 404 description.

Definition createTolerance (c : Call) (e : error) : Prop :=
  readTolerance c e \/ exists id, c = StartServer id.

Section Answers.

Variable client : Client.
Variable tolerance : Call -> error -> Prop.
Variable mayPanic : Prop.

(** The answer to [c], issued after [h], is no error or a tolerated one. *)
Definition accepted (h : list Call) (c : Call) : Prop :=
  match resp_err (client h c) with
  | None => True
  | Some e => tolerance c e
  end.

(** Every call of [l], issued in turn after [h], is accepted. *)
Fixpoint allAccepted (h l : list Call) : Prop :=
  match l with
  | [] => True
  | c :: rest => accepted h c /\ allAccepted (h ++ [c]) rest
  end.

(** Started after [h], the computation ends with a value only when every
    call it issued was accepted; it ends with an error [e] only right after
    a call that the client answered with [e], an error that is not
    tolerated, every call before it having been accepted; and it panics only
    where [mayPanic] holds, every call it issued having been accepted. *)
Definition stopsAtFailure {A} (m : M A) (h : list Call) : Prop :=
  exists l,
    fst (m h) = h ++ l
    /\ match snd (m h) with
       | Ok _ => allAccepted h l
       | Err e =>
           exists l0 c,
             l = l0 ++ [c] /\ allAccepted h l0
             /\ resp_err (client (h ++ l0) c) = Some e
             /\ ~ tolerance c e
       | Panic _ => mayPanic /\ allAccepted h l
       end.

Definition sound {A} (m : M A) : Prop := forall h, stopsAtFailure m h.

End Answers.

(** ** The calls of the create path, written out *)

Definition versionLookup (attr : string) : list Call :=
  if GetOk_string attr then [GetIPVersion attr] else [].

Definition requestedIP (attr : string) : list ServerCreateRequestIP :=
  if GetOk_string attr then [mkCreateIP attr] else [].

(** The look-ups that precede [CreateServer]: the version of each requested
    address, then the public network when an address is requested. *)
Definition createLookups (d : ResourceData) : list Call :=
  let a := planned d in
  versionLookup (ipv4 a) ++ versionLookup (ipv6 a)
  ++ (if GetOk_string (ipv4 a) || GetOk_string (ipv6 a)
      then [GetNetworkPublic] else []).

(** The request body the create path sends, the public network being the one
    the client names.  It lists no storage: the create path gets to
    [CreateServer] only when the desired state has none. *)
Definition createRequest (client : Client) (d : ResourceData)
    : ServerCreateRequest :=
  let a := planned d in
  let versions := versionLookup (ipv4 a) ++ versionLookup (ipv6 a) in
  mkCreateRequest (name a) (cores a) (memory a) (location_uuid a)
    (availability_zone a) (labels a) (hardwareProfileOf (hardware_profile a))
    (mkRelations
       (if GetOk_string (isoimage a) then [mkCreateIso (isoimage a)] else [])
       ((if GetOk_string (ipv4 a) || GetOk_string (ipv6 a)
         then [mkCreateNetwork
                 (resp_uuid (client versions GetNetworkPublic)) false]
         else [])
        ++ map (fun n => mkCreateNetwork (object_uuid n) (bootdevice n))
             (network a))
       (requestedIP (ipv4 a) ++ requestedIP (ipv6 a))
       []).

(** The id the client gives the created server. *)
Definition createdId (client : Client) (d : ResourceData) : string :=
  resp_uuid (client (createLookups d) (CreateServer (createRequest client d))).

(** The calls that follow [CreateServer]. *)
Definition postCreateCalls (d : ResourceData) (id : string) : list Call :=
  (if power (planned d) then [StartServer id] else []) ++ [GetServer id].

Definition createCalls (client : Client) (d : ResourceData) : list Call :=
  createLookups d ++ [CreateServer (createRequest client d)]
  ++ postCreateCalls d (createdId client d).

(** The calls of the create path on every run: with a storage in the
    desired state the first loop header panics before any call. *)
Definition createRun (client : Client) (d : ResourceData) : list Call :=
  if GetOk_list (storage (planned d)) then [] else createCalls client d.

(** ** The calls of the update path on every run *)

(** The calls of an update up to the storage block. *)
Definition callsUpToStorages (client : Client) (d : ResourceData) : list Call :=
  callsBeforeNetworks client d ++ networkCalls d.

(** When the storage collection changed the update does not get past the
    first loop header of the storage block. *)
Definition updateRun (client : Client) (d : ResourceData) : list Call :=
  callsUpToStorages client d
  ++ (if HasChange_storage d then []
      else powerCalls d ++ [GetServer (Id d)]).

Definition delete (d : ResourceData) (client : Client) :=
  resourceGridscaleServerDelete client d [].

(** ** More kinds of calls *)

Definition isGetNetworkPublic (c : Call) : bool :=
  match c with
  | GetNetworkPublic => true
  | _ => false
  end.

Definition isCreateServer (c : Call) : bool :=
  match c with
  | CreateServer _ => true
  | _ => false
  end.

Definition isGetServer (c : Call) : bool :=
  match c with
  | GetServer _ => true
  | _ => false
  end.

(** The calls an update may issue on the server [id]: every call that names
    a server names [id], and the call is none of [GetIPVersion],
    [CreateServer], [DeleteServer], [StopServer] and [LinkIsoImage]. *)
Definition updateCallOn (id : string) (c : Call) : Prop :=
  match c with
  | GetNetworkPublic => True
  | GetServer i | UpdateServer i _ | StartServer i | ShutdownServer i
  | LinkStorage i _ _ | UnlinkStorage i _
  | LinkNetwork i _ _ _ _ | UnlinkNetwork i _
  | LinkIP i _ | UnlinkIP i _ | UnlinkIsoImage i _ => i = id
  | GetIPVersion _ | CreateServer _ | DeleteServer _ | StopServer _
  | LinkIsoImage _ _ => False
  end.

(** The profile names the create path tells apart. *)
Definition namedProfiles : list string :=
  ["legacy"; "nested"; "cisco_csr"; "sophos_utm"; "f5_bigip"; "q35";
   "q35_nested"].

(** ** The relations the read path stores *)

(** [resourceGridscaleServerRead], after a successful [GetServer], copies
    the relations of the answer into the resource data.  The records below
    are the relation properties of the client library, with the fields the
    read path reads, and the element maps it builds from them. *)
Module ServerRelations.

Section WithTime.

(** [gsclient.GSTime] and its [String] method. *)
Variable GSTime : Type.
Variable GSTimeString : GSTime -> string.

Record ServerStorageRelationProperties := mkStorageRelation {
  StorageObjectUUID : string;
  StorageBootDevice : bool;
  StorageCreateTime : GSTime;
  Controller : Z;
  Target : Z;
  Lun : Z;
  LicenseProductNo : Z;
  Bus : Z;
  StorageObjectName : string;
  StorageType : string;
  LastUsedTemplate : string;
  Capacity : Z
}.

Record ServerNetworkRelationProperties := mkNetworkRelation {
  PublicNet : bool;
  NetworkObjectUUID : string;
  NetworkBootDevice : bool;
  NetworkCreateTime : GSTime;
  Mac : string;
  FirewallTemplateUUID : string;
  NetworkObjectName : string;
  NetworkType : string;
  Ordering : Z
}.

Record ServerIPRelationProperties := mkIPRelation {
  Family : Z;
  IPObjectUUID : string
}.

Record ServerIsoImageRelationProperties := mkIsoImageRelation {
  IsoObjectUUID : string
}.

(** An element of ["storage"] as the read path builds it. *)
Record StorageElement := mkStorageElement {
  storage_object_uuid : string;
  storage_bootdevice : bool;
  storage_create_time : string;
  controller : Z;
  target : Z;
  lun : Z;
  license_product_no : Z;
  bus : Z;
  storage_object_name : string;
  storage_type : string;
  last_used_template : string;
  capacity : Z
}.

(** An element of ["network"] as the read path builds it. *)
Record NetworkElement := mkNetworkElement {
  network_object_uuid : string;
  network_bootdevice : bool;
  network_create_time : string;
  mac : string;
  firewall_template_uuid : string;
  network_object_name : string;
  network_type : string;
  ordering : Z
}.

(** [//Get storages] *)
Definition readStorages (l : list ServerStorageRelationProperties)
    : list StorageElement :=
  fold_left
    (fun storages value =>
       storages
       ++ [mkStorageElement (StorageObjectUUID value) (StorageBootDevice value)
             (GSTimeString (StorageCreateTime value)) (Controller value)
             (Target value) (Lun value) (LicenseProductNo value) (Bus value)
             (StorageObjectName value) (StorageType value)
             (LastUsedTemplate value) (Capacity value)])
    l [].

Definition networkElement (value : ServerNetworkRelationProperties)
    : NetworkElement :=
  mkNetworkElement (NetworkObjectUUID value) (NetworkBootDevice value)
    (GSTimeString (NetworkCreateTime value)) (Mac value)
    (FirewallTemplateUUID value) (NetworkObjectName value) (NetworkType value)
    (Ordering value).

(** [//Get networks] *)
Definition readNetworks (l : list ServerNetworkRelationProperties)
    : list NetworkElement :=
  fold_left
    (fun networks value =>
       if negb (PublicNet value) then networks ++ [networkElement value]
       else networks)
    l [].

(** [//Get IP addresses]: the values of ["ipv4"] and ["ipv6"]. *)
Definition readIPs (l : list ServerIPRelationProperties) : string * string :=
  fold_left
    (fun '(ipv4, ipv6) ip =>
       let ipv4 := if Family ip =? 4 then IPObjectUUID ip else ipv4 in
       let ipv6 := if Family ip =? 6 then IPObjectUUID ip else ipv6 in
       (ipv4, ipv6))
    l ("", "").

(** [//Get the ISO image]: ["isoimage"] is set to the empty string and then
    to the UUID of each ISO image in turn. *)
Definition readIsoimage (l : list ServerIsoImageRelationProperties) : string :=
  fold_left (fun _ isoimage => IsoObjectUUID isoimage) l "".

(** The UUID of the last address of the family, the empty string when the
    server has no address of the family. *)
Definition lastOfFamily (family : Z) (l : list ServerIPRelationProperties)
    : string :=
  last (map IPObjectUUID (filter (fun ip => Family ip =? family) l)) "".

End WithTime.

End ServerRelations.

(** ** The validation functions of the schema *)

(** The loop of both validation functions: [valid] starts [false] and the
    loop sets it, and breaks, at the first listed value equal to [v]. *)
Fixpoint listed (v : string) (values : list string) : bool :=
  match values with
  | [] => false
  | value :: rest => if (v =? value)%string then true else listed v rest
  end.

(** [ValidateFunc] of ["hardware_profile"], given the list
    [hardwareProfiles]: the warnings and the messages of the errors. *)
Definition validateHardwareProfile (hardwareProfiles : list string)
    (v : string) : list string * list string :=
  let valid := listed v hardwareProfiles in
  let errors :=
    if negb valid then
      [(v ++ " is not a valid hardware profile. Valid hardware profiles are: "
          ++ String.concat "," hardwareProfiles)%string]
    else [] in
  ([], errors).

(** [ValidateFunc] of ["availability_zone"], given the list
    [availabilityZones]. *)
Definition validateAvailabilityZone (availabilityZones : list string)
    (v : string) : list string * list string :=
  let valid := listed v availabilityZones in
  let errors :=
    if negb valid then
      [(v ++ " is not a valid availability zone. Valid availability zones are: "
          ++ String.concat "," availabilityZones)%string]
    else [] in
  ([], errors).

(** * Reasoning about the calls a computation issues *)

(** A type assertion that holds hands the elements over and nothing else
    happens. *)
Lemma bind_SetList_set {B} (elements : list Attachment)
    (f : list Attachment -> M B) :
  bind (SetList (SetValue elements)) f = f elements.
Proof. reflexivity. Qed.

(** A type assertion that fails ends the computation. *)
Lemma bind_SetList_list {B} (elements : list Attachment)
    (f : list Attachment -> M B) :
  bind (SetList (ListValue elements)) f = panic notASet.
Proof. reflexivity. Qed.

Section Reasoning.

Variable client : Client.

(** ** Successful runs *)

Lemma bind_ok {A B} (m : M A) (f : A -> M B) h h' b :
  bind m f h = (h', Ok b) ->
  exists a h1, m h = (h1, Ok a) /\ f a h1 = (h', Ok b).
Proof.
  unfold bind. destruct (m h) as [h1 [a | e | r]];
    [eauto | discriminate | discriminate].
Qed.

Lemma ret_ok {A} (a b : A) h h' : ret a h = (h', Ok b) -> h' = h /\ b = a.
Proof. unfold ret. intros H. inversion H. auto. Qed.

Lemma invoke_ok c h h' r :
  invoke client c h = (h', Ok r) -> h' = h ++ [c] /\ r = client h c.
Proof. unfold invoke. intros H. inversion H. auto. Qed.

Lemma checkErr_ok err h h' u :
  checkErr err h = (h', Ok u) -> h' = h /\ err = None.
Proof.
  destruct err; unfold checkErr, raise, ret; intros H; inversion H; auto.
Qed.

Lemma call_check_ok c h h' u :
  (err <- call client c ;; checkErr err) h = (h', Ok u) ->
  h' = h ++ [c] /\ resp_err (client h c) = None.
Proof.
  intros H. apply bind_ok in H as (err & h1 & Hc & Hk).
  unfold call in Hc. apply bind_ok in Hc as (r & h2 & Hi & Hr).
  apply invoke_ok in Hi as [-> ->]. apply ret_ok in Hr as [-> ->].
  apply checkErr_ok in Hk as [-> Hn]. auto.
Qed.

(** A loop that issues one checked call for each element passing a guard
    issues, when it succeeds, exactly those calls in the order of the
    collection. *)
Lemma forEach_guarded_ok {A} (p : A -> bool) (c : A -> Call) (l : list A) :
  forall h h' u,
    forEach l (fun x =>
      if p x then err <- call client (c x) ;; checkErr err else ret tt) h
    = (h', Ok u) ->
    h' = h ++ map c (filter p l).
Proof.
  induction l as [| x l IH]; intros h h' u H; simpl in *.
  - apply ret_ok in H as [-> _]. now rewrite app_nil_r.
  - apply bind_ok in H as (v & h1 & Hx & Hl).
    apply IH in Hl. subst h'.
    destruct (p x); simpl.
    + apply call_check_ok in Hx as [-> _]. now rewrite <- app_assoc.
    + apply ret_ok in Hx as [-> _]. reflexivity.
Qed.

(** ** Calls issued on every run, failing or not *)

Lemma emits_ret {A} P (a : A) : emits P (ret a).
Proof. intros h. exists []. simpl. now rewrite app_nil_r. Qed.

Lemma emits_raise {A} P e : emits P (@raise A e).
Proof. intros h. exists []. simpl. now rewrite app_nil_r. Qed.

Lemma emits_panic {A} P reason : emits P (@panic A reason).
Proof. intros h. exists []. simpl. now rewrite app_nil_r. Qed.

Lemma emits_SetList P attr : emits P (SetList attr).
Proof. destruct attr; [apply emits_panic | apply emits_ret]. Qed.

Lemma emits_checkErr P err : emits P (checkErr err).
Proof. destruct err; [apply emits_raise | apply emits_ret]. Qed.

Lemma emits_invoke (P : Call -> Prop) c : P c -> emits P (invoke client c).
Proof. intros Hc h. exists [c]. simpl. auto. Qed.

Lemma emits_bind {A B} P (m : M A) (f : A -> M B) :
  emits P m -> (forall a, emits P (f a)) -> emits P (bind m f).
Proof.
  intros Hm Hf h. unfold bind.
  destruct (Hm h) as (l1 & E1 & F1).
  destruct (m h) as [h1 [a | e | r]]; simpl in E1; subst h1.
  - destruct (Hf a (h ++ l1)) as (l2 & E2 & F2).
    exists (l1 ++ l2). rewrite E2, app_assoc.
    split; [reflexivity | now apply Forall_app].
  - exists l1. auto.
  - exists l1. auto.
Qed.

Lemma emits_call (P : Call -> Prop) c : P c -> emits P (call client c).
Proof.
  intros Hc. apply emits_bind; [now apply emits_invoke | intros; apply emits_ret].
Qed.

Lemma emits_forEach {A} P (l : list A) (f : A -> M unit) :
  (forall x, In x l -> emits P (f x)) -> emits P (forEach l f).
Proof.
  induction l as [| x l IH]; intros H; simpl.
  - apply emits_ret.
  - apply emits_bind; [apply H; now left |].
    intros _. apply IH. intros y Hy. apply H. now right.
Qed.

Lemma emits_Forall {A} P (m : M A) : emits P m -> Forall P (fst (m [])).
Proof.
  intros Hm. destruct (Hm []) as (l & E & F). now rewrite E.
Qed.

End Reasoning.

Ltac emits_step :=
  match goal with
  | |- emits _ (SetList _) => apply emits_SetList
  | |- emits _ (bind _ _) => apply emits_bind; [| intros ?]
  | |- emits _ (ret _) => apply emits_ret
  | |- emits _ (raise _) => apply emits_raise
  | |- emits _ (panic _) => apply emits_panic
  | |- emits _ (checkErr _) => apply emits_checkErr
  | |- emits _ (call _ _) => apply emits_call
  | |- emits _ (invoke _ _) => apply emits_invoke
  | |- emits _ (forEach _ _) => apply emits_forEach; intros ? ?
  | |- emits _ (if ?b then _ else _) => destruct b eqn:?
  | |- emits _ (match ?x with _ => _ end) => destruct x eqn:?
  end.

(** * Facts about lists *)

Lemma In_firstn {A} (x : A) (k : nat) (l : list A) : In x (firstn k l) -> In x l.
Proof.
  intros H. rewrite <- (firstn_skipn k l). apply in_or_app. now left.
Qed.

Lemma filter_none {A} (p : A -> bool) (l : list A) :
  Forall (fun x => p x = false) l -> filter p l = [].
Proof.
  induction 1 as [| x l Hx _ IH]; simpl; [reflexivity |]. now rewrite Hx.
Qed.

(** * The update path, step by step *)

Section UpdateSteps.

Variable client : Client.
Variable d : ResourceData.

Lemma shutdown_step_ok h h' u :
  (if shutdownRequired d then
     err <- call client (ShutdownServer (Id d)) ;; checkErr err
   else ret tt) h = (h', Ok u) ->
  h' = h ++ shutdownCalls d.
Proof.
  unfold shutdownCalls. destruct (shutdownRequired d); intros H.
  - now apply call_check_ok in H as [-> _].
  - apply ret_ok in H as [-> _]. now rewrite app_nil_r.
Qed.

Lemma updateIsoimage_ok h h' u :
  updateIsoimage client d h = (h', Ok u) -> h' = h ++ isoimageCalls d.
Proof.
  unfold updateIsoimage, isoimageCalls.
  destruct (HasChange_isoimage d); intros H.
  - destruct (isoimage (planned d) =? "")%string;
      now apply call_check_ok in H as [-> _].
  - apply ret_ok in H as [-> _]. now rewrite app_nil_r.
Qed.

Lemma updateIP_ok hasChange oldIp newIp needs h h' b :
  updateIP client d hasChange oldIp newIp needs h = (h', Ok b) ->
  h' = h ++ ipCalls d hasChange oldIp newIp
  /\ b = (if hasChange && negb (oldIp =? "")%string then false else needs).
Proof.
  unfold updateIP, ipCalls. destruct hasChange; intros H.
  - apply bind_ok in H as (err & h1 & Hc & H).
    apply bind_ok in H as (v & h2 & Hk & H).
    apply ret_ok in H as [-> ->].
    assert (Hcall : (e <- (if (newIp =? "")%string
                           then call client (UnlinkIP (Id d) oldIp)
                           else call client (LinkIP (Id d) newIp)) ;;
                     checkErr e) h = (h2, Ok v)).
    { unfold bind at 1. rewrite Hc. exact Hk. }
    split; [| reflexivity].
    destruct (newIp =? "")%string;
      now apply call_check_ok in Hcall as [-> _].
  - apply ret_ok in H as [-> ->]. now rewrite app_nil_r.
Qed.

Lemma public_step_ok (c : string -> Call) h h' u :
  (publicNetwork <- invoke client GetNetworkPublic ;;
   checkErr (resp_err publicNetwork) ;;
   err <- call client (c (resp_uuid publicNetwork)) ;;
   checkErr err) h = (h', Ok u) ->
  h' = h ++ [GetNetworkPublic; c (resp_uuid (client h GetNetworkPublic))].
Proof.
  intros H. apply bind_ok in H as (r & h1 & Hi & H).
  apply invoke_ok in Hi as [-> ->].
  apply bind_ok in H as (v & h2 & Hk & H).
  apply checkErr_ok in Hk as [-> _].
  apply call_check_ok in H as [-> _]. now rewrite <- app_assoc.
Qed.

Lemma updatePublicNetwork_ok h h' u :
  updatePublicNetwork client d (needsPublicNetwork d) h = (h', Ok u) ->
  h' = h ++ publicNetworkCalls client d h.
Proof.
  unfold updatePublicNetwork, publicNetworkCalls.
  fold (unlinksPublicNetwork d). fold (linksPublicNetwork d).
  intros H. apply bind_ok in H as (v & h1 & H1 & H2).
  assert (E1 : h1 = h ++ (if unlinksPublicNetwork d then
                 [GetNetworkPublic;
                  UnlinkNetwork (Id d) (resp_uuid (client h GetNetworkPublic))]
               else [])).
  { destruct (unlinksPublicNetwork d).
    - now apply (public_step_ok (fun uuid => UnlinkNetwork (Id d) uuid)) in H1.
    - apply ret_ok in H1 as [-> _]. now rewrite app_nil_r. }
  rewrite <- E1.
  destruct (linksPublicNetwork d).
  - apply (public_step_ok (fun uuid => LinkNetwork (Id d) uuid "" false 0)) in H2.
    rewrite H2, E1 at 1. now rewrite <- app_assoc.
  - apply ret_ok in H2 as [-> _]. now rewrite app_nil_r, E1 at 1.
Qed.

Lemma updateNetworks_ok h h' u :
  updateNetworks client d h = (h', Ok u) -> h' = h ++ networkCalls d.
Proof.
  unfold updateNetworks, networkCalls, Get_network. cbv zeta.
  rewrite bind_SetList_set.
  destruct (HasChange_network d); intros H.
  - apply bind_ok in H as (v & h1 & H1 & H2).
    rewrite bind_SetList_set in H2.
    apply (forEach_guarded_ok client hasUUID
             (fun n => UnlinkNetwork (Id d) (object_uuid n))) in H1.
    apply (forEach_guarded_ok client hasUUID
             (fun n => LinkNetwork (Id d) (object_uuid n) "" (bootdevice n) 0))
      in H2.
    subst. now rewrite <- app_assoc.
  - apply ret_ok in H as [-> _]. now rewrite app_nil_r.
Qed.

End UpdateSteps.

(** * The storage differ *)

Lemma absentFrom_false_iff (l : list Attachment) (a : Attachment) :
  absentFrom l a = false <->
  exists b, In b l /\ object_uuid a = object_uuid b.
Proof.
  unfold absentFrom. rewrite negb_false_iff, existsb_exists.
  split; intros (b & Hb & E); exists b; split; auto;
    now apply String.eqb_eq.
Qed.

Lemma filter_absentFrom_self (l : list Attachment) : filter (absentFrom l) l = [].
Proof.
  assert (G : forall k, (forall a, In a k -> In a l) -> filter (absentFrom l) k = []).
  { induction k as [| a k IH]; intros Hk; simpl; [reflexivity |].
    assert (F : absentFrom l a = false).
    { apply absentFrom_false_iff. exists a. split; [apply Hk; now left | reflexivity]. }
    rewrite F. apply IH. intros b Hb. apply Hk. now right. }
  apply G. auto.
Qed.

Lemma HasChange_false {A} (eq_dec : forall x y : A, {x = y} + {x <> y}) key d :
  HasChange eq_dec key d = false <-> key (prior d) = key (planned d).
Proof.
  unfold HasChange. destruct (eq_dec _ _); split; congruence.
Qed.

Lemma HasChange_true {A} (eq_dec : forall x y : A, {x = y} + {x <> y}) key d :
  HasChange eq_dec key d = true <-> key (prior d) <> key (planned d).
Proof.
  unfold HasChange. destruct (eq_dec _ _); split; congruence.
Qed.

Lemma storageCalls_unchanged d : HasChange_storage d = false -> storageCalls d = [].
Proof.
  intros H. apply HasChange_false in H.
  unfold storageCalls, toRemove, toAdd. rewrite H.
  now rewrite filter_absentFrom_self.
Qed.

(** The storage block: nothing happens when the collection did not change;
    when it changed, the first loop header panics. *)
Lemma updateStorages_run client d h :
  updateStorages client d h
  = if HasChange_storage d then (h, Panic notASet) else (h, Ok tt).
Proof.
  unfold updateStorages. now destruct (HasChange_storage d).
Qed.

Lemma updateStorages_ok client d h h' u :
  updateStorages client d h = (h', Ok u) ->
  h' = h /\ HasChange_storage d = false.
Proof.
  rewrite updateStorages_run.
  destruct (HasChange_storage d); intros H; inversion H; auto.
Qed.

(** * The update path as a whole *)

Lemma needsPublicNetwork_threaded d :
  (if HasChange_ipv6 d && negb (ipv6 (prior d) =? "")%string then false
   else if HasChange_ipv4 d && negb (ipv4 (prior d) =? "")%string then false
        else true)
  = needsPublicNetwork d.
Proof.
  unfold needsPublicNetwork.
  destruct (HasChange_ipv6 d && _), (HasChange_ipv4 d && _); reflexivity.
Qed.

Lemma Read_ok client id h h' u :
  resourceGridscaleServerRead client id h = (h', Ok u) -> h' = h ++ [GetServer id].
Proof.
  unfold resourceGridscaleServerRead. intros H.
  apply bind_ok in H as (r & h1 & Hi & H).
  apply invoke_ok in Hi as [-> ->].
  destruct (resp_err _) as [[code descr | | |] |];
    try discriminate; try (now apply ret_ok in H as [-> _]).
  destruct (code =? 404); [now apply ret_ok in H as [-> _] | discriminate].
Qed.

(** A successful update has issued exactly the calls of [updateCalls]. *)
Lemma update_ok_trace client d t u :
  update d client = (t, Ok u) -> t = updateCalls client d.
Proof.
  unfold update, resourceGridscaleServerUpdate. intros H.
  apply bind_ok in H as (v1 & h1 & H1 & H).
  apply shutdown_step_ok in H1.
  apply bind_ok in H as (err & h2 & H2 & H).
  apply bind_ok in H as (v2 & h2' & H2' & H).
  assert (E2 : h2' = h1 ++ attributeCalls d).
  { assert (Hc : (e <- call client (UpdateServer (Id d)
                         (mkUpdateRequest (name (planned d))
                            (availability_zone (planned d))
                            (convSOStrings (labels (planned d)))
                            (cores (planned d)) (memory (planned d)))) ;;
                  checkErr e) h1 = (h2', Ok v2)).
    { unfold bind at 1. rewrite H2. exact H2'. }
    now apply call_check_ok in Hc as [-> _]. }
  apply bind_ok in H as (v3 & h3 & H3 & H).
  apply updateIsoimage_ok in H3.
  apply bind_ok in H as (n4 & h4 & H4 & H).
  apply updateIP_ok in H4 as [H4 N4].
  apply bind_ok in H as (n6 & h6 & H6 & H).
  apply updateIP_ok in H6 as [H6 N6].
  rewrite N4 in N6. rewrite needsPublicNetwork_threaded in N6. subst n6.
  apply bind_ok in H as (v5 & h5 & H5 & H).
  apply updatePublicNetwork_ok in H5.
  apply bind_ok in H as (v7 & h7 & H7 & H).
  apply updateNetworks_ok in H7.
  apply bind_ok in H as (v8 & h8 & H8 & H).
  apply updateStorages_ok in H8 as [H8 C8].
  rewrite <- (app_nil_r h7) in H8.
  rewrite <- (storageCalls_unchanged d C8) in H8.
  apply bind_ok in H as (e9 & h9 & H9 & H).
  apply bind_ok in H as (v9 & h9' & H9' & H).
  apply Read_ok in H.
  assert (E9 : h9' = h8 ++ powerCalls d).
  { assert (Hc : (e <- (if power (planned d) then call client (StartServer (Id d))
                        else call client (ShutdownServer (Id d))) ;;
                  checkErr e) h8 = (h9', Ok v9)).
    { unfold bind at 1. rewrite H9. exact H9'. }
    unfold powerCalls.
    destruct (power (planned d)); now apply call_check_ok in Hc as [-> _]. }
  unfold updateCalls, callsBeforeNetworks, callsAfterNetworks.
  subst. rewrite !app_nil_l. repeat rewrite <- app_assoc. reflexivity.
Qed.

(** * The power requirement *)

Lemma shutdownRequired_true_iff (d : ResourceData) :
  shutdownRequired d = true <-> powerCycleClauses d.
Proof.
  unfold shutdownRequired, powerCycleClauses.
  unfold HasChange_cores, HasChange_memory, HasChange_ipv4, HasChange_ipv6,
    HasChange_storage, HasChange_network, HasChange.
  destruct (Z.eq_dec (cores (prior d)) (cores (planned d))) as [Ec | Ec];
  destruct (Z.eq_dec (memory (prior d)) (memory (planned d))) as [Em | Em];
  destruct (string_dec (ipv4 (prior d)) (ipv4 (planned d))) as [E4 | E4];
  destruct (string_dec (ipv6 (prior d)) (ipv6 (planned d))) as [E6 | E6];
  destruct (list_eq_dec Attachment_eq_dec (storage (prior d)) (storage (planned d)))
    as [Es | Es];
  destruct (list_eq_dec Attachment_eq_dec (network (prior d)) (network (planned d)))
    as [En | En];
  destruct (legacy (planned d));
  destruct (Z.ltb_spec (cores (planned d)) (cores (prior d))) as [Lc | Lc];
  destruct (Z.ltb_spec (memory (planned d)) (memory (prior d))) as [Lm | Lm];
  simpl; split; intros H; try reflexivity; try discriminate; try tauto;
    try (exfalso; intuition (try lia; try congruence; try discriminate)).
Qed.

(** C5, as the code has it: the power-requirement classification is true
    exactly when one of its clauses holds: fewer cores, less memory, a change
    of cores or memory (increases too) on a legacy server, or a change of
    ipv4, ipv6, the storage collection or the network collection.  On a
    server that is not legacy and with no other change, cores 4 to 2 gives
    true and memory 4 to 8 gives false. *)
Theorem shutdownRequired_classification (d : ResourceData) :
  (shutdownRequired d = true <-> powerCycleClauses d)
  /\ (legacy (planned d) = false -> noAttachmentChange d ->
      memory (prior d) = memory (planned d) ->
      cores (prior d) = 4 -> cores (planned d) = 2 ->
      shutdownRequired d = true)
  /\ (legacy (planned d) = false -> noAttachmentChange d ->
      cores (prior d) = cores (planned d) ->
      memory (prior d) = 4 -> memory (planned d) = 8 ->
      shutdownRequired d = false).
Proof.
  split; [apply shutdownRequired_true_iff |].
  split.
  - intros _ _ _ Ho Hn. apply shutdownRequired_true_iff.
    left. rewrite Ho, Hn. lia.
  - intros Hl (E4 & E6 & Es & En) Ec Ho Hn.
    destruct (shutdownRequired d) eqn:E; [| reflexivity].
    apply shutdownRequired_true_iff in E.
    unfold powerCycleClauses in E. rewrite Hl, Ho, Hn in E.
    exfalso. intuition (try lia; try congruence).
Qed.

Lemma shutdownRequired_classification_witness :
  shutdownRequired dCoresDown = true /\ shutdownRequired dMemoryUp = false.
Proof.
  split.
  - apply (proj1 (proj2 (shutdownRequired_classification dCoresDown)));
      try reflexivity.
    unfold noAttachmentChange. simpl. auto.
  - apply (proj2 (proj2 (shutdownRequired_classification dMemoryUp)));
      try reflexivity.
    unfold noAttachmentChange. simpl. auto.
Defined.

(** C5, as the specification words it, fails: on the legacy server of
    [dLegacyName] an attribute changes, the name, so a clause of the
    specification holds; the classification is false, for it looks at the
    legacy flag only where cores or memory changed. *)
Lemma legacy_rename_counterexample :
  claimedPowerCycleClauses dLegacyName
  /\ shutdownRequired dLegacyName = false
  /\ ~ (shutdownRequired dLegacyName = true
        <-> claimedPowerCycleClauses dLegacyName).
Proof.
  assert (C : claimedPowerCycleClauses dLegacyName).
  { right. right. left. split; [reflexivity |]. left. discriminate. }
  split; [exact C |]. split; [reflexivity |].
  intros [_ H]. specialize (H C). discriminate H.
Qed.

(** * An update that changes nothing *)

Lemma HasChange_same {A} (eq_dec : forall x y : A, {x = y} + {x <> y}) key d :
  prior d = planned d -> HasChange eq_dec key d = false.
Proof. intros E. apply HasChange_false. now rewrite E. Qed.

Lemma shutdownRequired_same d : prior d = planned d -> shutdownRequired d = false.
Proof.
  intros E. unfold shutdownRequired, HasChange_cores, HasChange_memory,
    HasChange_ipv4, HasChange_ipv6, HasChange_storage, HasChange_network.
  now rewrite !HasChange_same.
Qed.

(** C7, as the code has it: when the observed and the desired state are
    identical, the update issues no shutdown ahead of the attribute update
    and no link or unlink call; it issues [UpdateServer], then the closing
    power-state call ([StartServer] when power is desired, [ShutdownServer]
    otherwise), then reads the server again.  A failing call cuts this
    sequence short. *)
Theorem converged_update_calls (client : Client) (d : ResourceData) :
  prior d = planned d ->
  let calls := attributeCalls d ++ powerCalls d ++ [GetServer (Id d)] in
  (exists k, trace (update d client) = firstn k calls)
  /\ (forall u, outcome (update d client) = Ok u ->
      trace (update d client) = calls)
  /\ Forall (fun c => isLinkCall c = false) (trace (update d client)).
Proof.
  intros E calls.
  assert (T : (exists k, trace (update d client) = firstn k calls)
              /\ (forall u, outcome (update d client) = Ok u ->
                  trace (update d client) = calls)).
  { unfold calls, update, resourceGridscaleServerUpdate, updateIsoimage,
      updateIP, updatePublicNetwork, updateNetworks, updateStorages,
      attributeCalls, powerCalls.
    rewrite (shutdownRequired_same d E).
    unfold HasChange_ipv4, HasChange_ipv6, HasChange_isoimage,
      HasChange_storage, HasChange_network.
    rewrite !HasChange_same by assumption.
    unfold resourceGridscaleServerRead, convSOStrings, trace, outcome.
    cbv beta iota zeta delta [bind call invoke checkErr ret raise andb orb app].
    destruct (resp_err (client [] _)) as [e1 |]; cbn [fst snd].
    { split; [now exists 1%nat | discriminate]. }
    destruct (power (planned d)); cbn [fst snd app].
    - destruct (resp_err (client _ (StartServer _))) as [e2 |]; cbn [fst snd].
      { split; [now exists 2%nat | discriminate]. }
      destruct (resp_err (client _ (GetServer _))) as [[code descr | | |] |];
        try destruct (code =? 404); cbn [fst snd];
        (split; [now exists 3%nat | intros u Hu; reflexivity]).
    - destruct (resp_err (client _ (ShutdownServer _))) as [e2 |]; cbn [fst snd].
      { split; [now exists 2%nat | discriminate]. }
      destruct (resp_err (client _ (GetServer _))) as [[code descr | | |] |];
        try destruct (code =? 404); cbn [fst snd];
        (split; [now exists 3%nat | intros u Hu; reflexivity]). }
  destruct T as [[k Hk] Hok].
  split; [now exists k |]. split; [exact Hok |].
  rewrite Hk. apply Forall_forall. intros c Hc.
  apply In_firstn in Hc. unfold calls, attributeCalls, powerCalls in Hc.
  simpl in Hc. destruct Hc as [<- | [<- | [<- | []]]]; try reflexivity.
  now destruct (power (planned d)).
Qed.

Lemma converged_update_calls_witness :
  prior dConverged = planned dConverged
  /\ trace (update dConverged okClient)
     = attributeCalls dConverged ++ powerCalls dConverged
       ++ [GetServer (Id dConverged)].
Proof.
  split; [reflexivity |].
  exact (proj1 (proj2 (converged_update_calls okClient dConverged eq_refl))
           tt eq_refl).
Defined.

(** C7, as the specification words it, fails: the converged server of
    [dConverged] is started again. *)
Lemma converged_update_counterexample :
  prior dConverged = planned dConverged
  /\ In (StartServer "srv") (trace (update dConverged okClient))
  /\ ~ NoPowerOrLinkCalls (trace (update dConverged okClient)).
Proof.
  split; [reflexivity |]. split; [vm_compute; auto |].
  intros H. unfold NoPowerOrLinkCalls in H. rewrite Forall_forall in H.
  specialize (H (StartServer "srv")). simpl in H.
  assert (X : true = false) by (apply H; vm_compute; auto).
  discriminate.
Qed.

(** * Runs of the update and create paths on concrete inputs *)

(** C2: attaching the ISO image ["iso-new"] to a server that had none.  The
    update calls [UnlinkIsoImage] on the new image and never calls
    [LinkIsoImage]. *)
Theorem update_new_isoimage_run :
  update dNewIso okClient
  = ([UpdateServer "srv" (updateBody (planned dNewIso));
      UnlinkIsoImage "srv" "iso-new";
      StartServer "srv"; GetServer "srv"], Ok tt)
  /\ ~ In (LinkIsoImage "srv" "iso-new") (trace (update dNewIso okClient)).
Proof.
  split; [reflexivity |].
  vm_compute. intros H.
  repeat (destruct H as [H | H]; [discriminate H |]). exact H.
Qed.

(** C3: replacing the IPv4 address ["ip4-old"] by ["ip4-new"].  The update
    links the new address; the old address is never unlinked. *)
Theorem update_replace_ipv4_run :
  update dReplaceIPv4 okClient
  = ([ShutdownServer "srv";
      UpdateServer "srv" (updateBody (planned dReplaceIPv4));
      LinkIP "srv" "ip4-new";
      StartServer "srv"; GetServer "srv"], Ok tt)
  /\ ~ In (UnlinkIP "srv" "ip4-old") (trace (update dReplaceIPv4 okClient)).
Proof.
  split; [reflexivity |].
  vm_compute. intros H.
  repeat (destruct H as [H | H]; [discriminate H |]). exact H.
Qed.

(** C6: adding the IPv4 address ["ip4-a"] while the IPv6 address ["ip6-x"]
    stays as it was.  An address was present before and after, yet the update
    links the server to the public network. *)
Theorem update_add_ipv4_run :
  ipv6 (prior dAddIPv4) = "ip6-x" /\ ipv6 (planned dAddIPv4) = "ip6-x"
  /\ update dAddIPv4 okClient
     = ([ShutdownServer "srv";
         UpdateServer "srv" (updateBody (planned dAddIPv4));
         LinkIP "srv" "ip4-a";
         GetNetworkPublic;
         LinkNetwork "srv" "public" "" false 0;
         StartServer "srv"; GetServer "srv"], Ok tt).
Proof. repeat split. Qed.

(** C8: creating a server with power on against a client whose
    [StartServer] fails.  The failing call is issued, its error is dropped,
    and the create path reports success. *)
Theorem create_start_failure_run :
  create dPlain startFailsClient
  = ([CreateServer (createBody []); StartServer "srv"; GetServer "srv"], Ok tt)
  /\ resp_err (startFailsClient [CreateServer (createBody [])] (StartServer "srv"))
     = Some (ClientError "start failed").
Proof. split; reflexivity. Qed.

(** * Networks on update *)

(** C4, as the specification words it, fails: network ["B"] is in the
    observed and in the desired collection of [dNetworks], and it is unlinked
    and linked again. *)
Lemma shared_network_counterexample :
  In "B" (map object_uuid (network (prior dNetworks)))
  /\ In "B" (map object_uuid (network (planned dNetworks)))
  /\ update dNetworks okClient
     = ([ShutdownServer "srv";
         UpdateServer "srv" (updateBody (planned dNetworks));
         UnlinkNetwork "srv" "A"; UnlinkNetwork "srv" "B";
         LinkNetwork "srv" "B" "" false 0; LinkNetwork "srv" "C" "" false 0;
         StartServer "srv"; GetServer "srv"], Ok tt)
  /\ ~ networkUntouched "B" (trace (update dNetworks okClient)).
Proof.
  split; [simpl; auto |]. split; [simpl; auto |]. split; [reflexivity |].
  intros H. unfold networkUntouched in H. rewrite Forall_forall in H.
  specialize (H (UnlinkNetwork "srv" "B")).
  assert (X : isNetworkCallOn "B" (UnlinkNetwork "srv" "B") = false)
    by (apply H; vm_compute; auto).
  discriminate X.
Qed.

(** C4, as the code has it: in a successful update whose network collection
    changed, every observed network with a non-empty UUID is unlinked and then
    every desired network with a non-empty UUID is linked, those present in
    both collections included; when the collection did not change the network
    block issues no call. *)
Theorem changed_networks_relinked (client : Client) (d : ResourceData)
    (t : list Call) (u : unit) :
  update d client = (t, Ok u) ->
  t = callsBeforeNetworks client d ++ networkCalls d ++ callsAfterNetworks d
  /\ (network (prior d) <> network (planned d) ->
      networkCalls d
      = map (fun n => UnlinkNetwork (Id d) (object_uuid n))
          (filter hasUUID (network (prior d)))
        ++ map (fun n => LinkNetwork (Id d) (object_uuid n) "" (bootdevice n) 0)
             (filter hasUUID (network (planned d))))
  /\ (network (prior d) = network (planned d) -> networkCalls d = []).
Proof.
  intros H. split; [now apply update_ok_trace in H |].
  unfold networkCalls, HasChange_network. split; intros E.
  - now rewrite (proj2 (HasChange_true _ network d) E).
  - now rewrite (proj2 (HasChange_false _ network d) E).
Qed.

Lemma changed_networks_relinked_witness :
  update dNetworks okClient
  = (trace (update dNetworks okClient), Ok tt)
  /\ networkCalls dNetworks
     = [UnlinkNetwork "srv" "A"; UnlinkNetwork "srv" "B";
        LinkNetwork "srv" "B" "" false 0; LinkNetwork "srv" "C" "" false 0].
Proof.
  split; [reflexivity |].
  assert (N : network (prior dNetworks) <> network (planned dNetworks))
    by discriminate.
  exact (proj1 (proj2 (changed_networks_relinked okClient dNetworks
                         (trace (update dNetworks okClient)) tt eq_refl)) N).
Defined.

(** * Storages on update *)

(** C10: the storages [A, B] become [B, C].  The update shuts the server
    down and updates its attributes; then the first loop header of the
    storage block asserts that the ["storage"] list is a set, and panics.
    Storage [A] is never unlinked, storage [C] is never linked, and the
    update returns nothing. *)
Theorem update_changed_storages_run :
  update dStorages okClient
  = ([ShutdownServer "srv";
      UpdateServer "srv" (updateBody (planned dStorages))], Panic notASet)
  /\ ~ In (UnlinkStorage "srv" "A") (trace (update dStorages okClient))
  /\ ~ In (LinkStorage "srv" "C" false) (trace (update dStorages okClient)).
Proof.
  split; [reflexivity |].
  split; vm_compute; intros H;
    repeat (destruct H as [H | H]; [discriminate H |]); exact H.
Qed.

(** * The create path *)

(** C9: the desired state has the storages [boot: S1], [S2], [S3].  The
    first loop header of the create path asserts that the ["storage"] list
    is a set, and panics before any call: no [CreateServer], no
    [LinkStorage] and no [StartServer] is issued. *)
Theorem create_three_storages_run :
  storage (planned dThreeStorages) = [S1; S2; S3]
  /\ create dThreeStorages okClient = ([], Panic notASet).
Proof. split; reflexivity. Qed.

(** Before [CreateServer] the create path only looks up IP versions and the
    public network. *)
Lemma createRequestBody_emits (client : Client) (d : ResourceData) :
  emits (fun c => isLookup c = true) (createRequestBody client d).
Proof.
  unfold createRequestBody, createPublicIP. cbv zeta.
  repeat emits_step; reflexivity.
Qed.

Lemma bind_err {A B} (m : M A) (f : A -> M B) h h' e :
  bind m f h = (h', Err e) ->
  m h = (h', Err e)
  \/ exists a h1, m h = (h1, Ok a) /\ f a h1 = (h', Err e).
Proof.
  unfold bind. destruct (m h) as [h1 [a | e1 | r]]; intros H;
    [eauto | left; now inversion H | discriminate H].
Qed.

Lemma createPublicIP_err (client : Client) attr version acc h h' e :
  createPublicIP client attr version acc h = (h', Err e) ->
  e = NotIPVersion attr version.
Proof.
  unfold createPublicIP. destruct (GetOk_string attr); [| discriminate].
  unfold bind, invoke. destruct (negb _); unfold raise, ret; intros H;
    now inversion H.
Qed.

(** The errors of the create path that precede [CreateServer]. *)
Lemma createRequestBody_err (client : Client) (d : ResourceData) t e :
  createRequestBody client d [] = (t, Err e) ->
  (e = NotIPVersion (ipv4 (planned d)) 4
   \/ e = NotIPVersion (ipv6 (planned d)) 6)
  \/ (exists h, t = h ++ [GetNetworkPublic]
                /\ resp_err (client h GetNetworkPublic) = Some e).
Proof.
  unfold createRequestBody. cbv zeta. intros H.
  apply bind_err in H as [H | (storages & h0 & _ & H)].
  { destruct (GetOk_list _); discriminate H. }
  apply bind_err in H as [H | (ips1 & h1 & _ & H)];
    [apply createPublicIP_err in H; auto |].
  apply bind_err in H as [H | (ips2 & h2 & _ & H)];
    [apply createPublicIP_err in H; auto |].
  apply bind_err in H as [H | (nets & h3 & _ & H)].
  - right. destruct (0 <? _); [| discriminate H].
    unfold bind, invoke, checkErr in H.
    destruct (resp_err (client h2 GetNetworkPublic)) as [e' |] eqn:E;
      [| discriminate H].
    unfold raise in H. inversion H; subst. eauto.
  - apply bind_err in H as [H | (nets' & h4 & _ & H)]; [| discriminate H].
    destruct (GetOk_list _); discriminate H.
Qed.


Lemma count_app (p : Call -> bool) (l1 l2 : list Call) :
  count p (l1 ++ l2) = (count p l1 + count p l2)%nat.
Proof. unfold count. now rewrite filter_app, length_app. Qed.




(** * Further facts about the update path *)

(** No run of the update path calls [LinkIsoImage]. *)
Lemma update_never_links_isoimage (client : Client) (d : ResourceData) :
  Forall (fun c => isLinkIsoImage c = false) (trace (update d client)).
Proof.
  apply emits_Forall.
  unfold resourceGridscaleServerUpdate, updateIsoimage, updateIP,
    updatePublicNetwork, updateNetworks, updateStorages,
    resourceGridscaleServerRead.
  cbv zeta. repeat emits_step; reflexivity.
Qed.

(** The public network is unlinked only when an address was present and
    none is left. *)
Lemma unlinksPublicNetwork_transition (d : ResourceData) :
  unlinksPublicNetwork d = true ->
  (ipv4 (prior d) <> "" \/ ipv6 (prior d) <> "")
  /\ ipv4 (planned d) = "" /\ ipv6 (planned d) = "".
Proof.
  unfold unlinksPublicNetwork, HasChange_ipv4, HasChange_ipv6. intros H.
  apply andb_prop in H as [H E4]. apply andb_prop in H as [H E6].
  apply String.eqb_eq in E4, E6.
  split; [| now split].
  apply orb_prop in H as [H | H]; apply HasChange_true in H.
  - right. congruence.
  - left. congruence.
Qed.

(** Replacing the IPv4 address while there was and is no IPv6 address
    leaves the public network alone. *)
Lemma replace_ipv4_keeps_public_network (client : Client) (d : ResourceData)
    (h : list Call) :
  ipv6 (prior d) = "" -> ipv6 (planned d) = "" ->
  ipv4 (prior d) <> "" -> ipv4 (planned d) <> "" ->
  publicNetworkCalls client d h = [].
Proof.
  intros P6 N6 P4 N4.
  unfold publicNetworkCalls, unlinksPublicNetwork, linksPublicNetwork,
    needsPublicNetwork.
  apply String.eqb_neq in P4, N4. rewrite P4, N4.
  assert (C6 : HasChange_ipv6 d = false)
    by (apply HasChange_false; congruence).
  rewrite C6, N6. destruct (HasChange_ipv4 d); reflexivity.
Qed.

(** * Runs as initial segments of the calls written out *)

Lemma initialSegment_nil (L : list Call) : initialSegment [] L.
Proof. now exists L. Qed.

Lemma initialSegment_refl (L : list Call) : initialSegment L L.
Proof. exists []. now rewrite app_nil_r. Qed.

Lemma initialSegment_app_l (l L1 L2 : list Call) :
  initialSegment l L1 -> initialSegment l (L1 ++ L2).
Proof. intros (r & ->). exists (r ++ L2). now rewrite app_assoc. Qed.

Lemma initialSegment_app_r (L1 l L2 : list Call) :
  initialSegment l L2 -> initialSegment (L1 ++ l) (L1 ++ L2).
Proof. intros (r & ->). exists r. now rewrite app_assoc. Qed.

Lemma initialSegment_firstn (l L : list Call) :
  initialSegment l L <-> exists k, l = firstn k L.
Proof.
  split.
  - intros (r & ->). exists (length l).
    now rewrite firstn_app, Nat.sub_diag, firstn_all, firstn_O, app_nil_r.
  - intros (k & ->). exists (skipn k L). now rewrite firstn_skipn.
Qed.

Section Issues.

Variable client : Client.

Lemma issuesAt_ret {A} (a : A) h : issuesAt (ret a) h [] a.
Proof.
  exists []. simpl. rewrite app_nil_r.
  repeat split; [apply initialSegment_nil |]. congruence.
Qed.

Lemma issuesAt_raise {A} e h L (v : A) : issuesAt (raise e) h L v.
Proof.
  exists []. simpl. rewrite app_nil_r.
  repeat split; [apply initialSegment_nil | |]; discriminate.
Qed.

Lemma issuesAt_panic {A} reason h L (v : A) : issuesAt (panic reason) h L v.
Proof.
  exists []. simpl. rewrite app_nil_r.
  repeat split; [apply initialSegment_nil | |]; discriminate.
Qed.

Lemma issuesAt_checkErr err h : issuesAt (checkErr err) h [] tt.
Proof. destruct err; [apply issuesAt_raise | apply issuesAt_ret]. Qed.

Lemma issuesAt_invoke c h : issuesAt (invoke client c) h [c] (client h c).
Proof.
  exists [c]. simpl. repeat split; [apply initialSegment_refl |]. congruence.
Qed.

Lemma issuesAt_bind {A B} (m : M A) (f : A -> M B) h L1 L2 v1 v2 :
  issuesAt m h L1 v1 -> issuesAt (f v1) (h ++ L1) L2 v2 ->
  issuesAt (bind m f) h (L1 ++ L2) v2.
Proof.
  intros (l1 & E1 & S1 & V1) Hf. unfold issuesAt, bind.
  destruct (m h) as [h1 [a | e | r]]; simpl in E1; subst h1.
  - destruct (V1 a eq_refl) as [-> ->].
    destruct Hf as (l2 & E2 & S2 & V2).
    exists (L1 ++ l2). rewrite E2, app_assoc.
    split; [reflexivity |]. split; [now apply initialSegment_app_r |].
    intros b Hb. destruct (V2 b Hb) as [-> ->]. auto.
  - exists l1. simpl. split; [reflexivity |].
    split; [now apply initialSegment_app_l | discriminate].
  - exists l1. simpl. split; [reflexivity |].
    split; [now apply initialSegment_app_l | discriminate].
Qed.

(** A computation that returns no value is the end of the run. *)
Lemma issuesAt_stuck {A B} (m : M A) (f : A -> M B) h L v1 v2 :
  issuesAt m h L v1 -> (forall a, snd (m h) <> Ok a) ->
  issuesAt (bind m f) h L v2.
Proof.
  intros (l1 & E1 & S1 & _) Hn. unfold issuesAt, bind.
  destruct (m h) as [h1 [a | e | r]]; simpl in E1; subst h1.
  - now destruct (Hn a).
  - exists l1. simpl. split; [reflexivity |].
    split; [assumption | discriminate].
  - exists l1. simpl. split; [reflexivity |].
    split; [assumption | discriminate].
Qed.

Lemma issuesAt_eq {A} (m : M A) h L L' v :
  issuesAt m h L v -> L = L' -> issuesAt m h L' v.
Proof. now intros H <-. Qed.

Lemma issuesAt_call c h : issuesAt (call client c) h [c] (resp_err (client h c)).
Proof.
  unfold call.
  eapply issuesAt_eq;
    [eapply issuesAt_bind; [apply issuesAt_invoke | apply issuesAt_ret] |].
  reflexivity.
Qed.

Lemma issuesAt_checked_call c h :
  issuesAt (err <- call client c ;; checkErr err) h [c] tt.
Proof.
  eapply issuesAt_eq;
    [eapply issuesAt_bind; [apply issuesAt_call | apply issuesAt_checkErr] |].
  reflexivity.
Qed.

Lemma issuesAt_checked_call_then {B} c (rest : M B) h L v :
  issuesAt rest (h ++ [c]) L v ->
  issuesAt (err <- call client c ;; checkErr err ;; rest) h (c :: L) v.
Proof.
  intros Hr.
  eapply issuesAt_eq; [eapply issuesAt_bind; [apply issuesAt_call |] |].
  - eapply issuesAt_bind; [apply issuesAt_checkErr |].
    rewrite app_nil_r. exact Hr.
  - reflexivity.
Qed.

Lemma issuesAt_forEach_guarded {A} (p : A -> bool) (c : A -> Call) (l : list A) :
  forall h,
    issuesAt
      (forEach l (fun x =>
         if p x then err <- call client (c x) ;; checkErr err else ret tt))
      h (map c (filter p l)) tt.
Proof.
  induction l as [| x l IH]; intros h; simpl.
  - apply issuesAt_ret.
  - destruct (p x); simpl.
    + apply (issuesAt_bind _ _ h [c x] _ tt); [apply issuesAt_checked_call |].
      apply IH.
    + apply (issuesAt_bind _ _ h [] _ tt); [apply issuesAt_ret |].
      apply IH.
Qed.

End Issues.

Section UpdateIssues.

Variable client : Client.
Variable d : ResourceData.

Lemma shutdown_step_issues h :
  issuesAt
    (if shutdownRequired d then
       err <- call client (ShutdownServer (Id d)) ;; checkErr err
     else ret tt) h (shutdownCalls d) tt.
Proof.
  unfold shutdownCalls. destruct (shutdownRequired d);
    [apply issuesAt_checked_call | apply issuesAt_ret].
Qed.

Lemma updateIsoimage_issues h :
  issuesAt (updateIsoimage client d) h (isoimageCalls d) tt.
Proof.
  unfold updateIsoimage, isoimageCalls.
  destruct (HasChange_isoimage d); [| apply issuesAt_ret].
  destruct (isoimage (planned d) =? "")%string; apply issuesAt_checked_call.
Qed.

Lemma updateIP_issues hasChange oldIp newIp needs h :
  issuesAt (updateIP client d hasChange oldIp newIp needs) h
    (ipCalls d hasChange oldIp newIp)
    (if hasChange && negb (oldIp =? "")%string then false else needs).
Proof.
  unfold updateIP, ipCalls. destruct hasChange; [| apply issuesAt_ret].
  destruct (newIp =? "")%string;
    apply issuesAt_checked_call_then; apply issuesAt_ret.
Qed.

Lemma public_step_issues (c : string -> Call) h :
  issuesAt
    (publicNetwork <- invoke client GetNetworkPublic ;;
     checkErr (resp_err publicNetwork) ;;
     err <- call client (c (resp_uuid publicNetwork)) ;;
     checkErr err) h
    [GetNetworkPublic; c (resp_uuid (client h GetNetworkPublic))] tt.
Proof.
  apply (issuesAt_bind _ _ h [GetNetworkPublic] _ (client h GetNetworkPublic));
    [apply issuesAt_invoke |].
  apply (issuesAt_bind _ _ _ [] _ tt); [apply issuesAt_checkErr |].
  apply issuesAt_checked_call.
Qed.

Lemma updatePublicNetwork_issues h :
  issuesAt (updatePublicNetwork client d (needsPublicNetwork d)) h
    (publicNetworkCalls client d h) tt.
Proof.
  unfold updatePublicNetwork, publicNetworkCalls.
  fold (unlinksPublicNetwork d). fold (linksPublicNetwork d).
  apply (issuesAt_bind _ _ h _ _ tt).
  - destruct (unlinksPublicNetwork d);
      [apply (public_step_issues (fun uuid => UnlinkNetwork (Id d) uuid))
      | apply issuesAt_ret].
  - destruct (linksPublicNetwork d);
      [apply (public_step_issues
                (fun uuid => LinkNetwork (Id d) uuid "" false 0))
      | apply issuesAt_ret].
Qed.

Lemma updateNetworks_issues h :
  issuesAt (updateNetworks client d) h (networkCalls d) tt.
Proof.
  unfold updateNetworks, networkCalls, Get_network.
  destruct (HasChange_network d); [| apply issuesAt_ret].
  cbv zeta. rewrite bind_SetList_set.
  apply (issuesAt_bind _ _ h _ _ tt); [| rewrite bind_SetList_set].
  - apply (issuesAt_forEach_guarded client hasUUID
             (fun n => UnlinkNetwork (Id d) (object_uuid n))).
  - apply (issuesAt_forEach_guarded client hasUUID
             (fun n => LinkNetwork (Id d) (object_uuid n) "" (bootdevice n) 0)).
Qed.

(** The storage block and what follows it: with a changed storage list the
    run ends, without a call, at the first loop header. *)
Lemma storage_step_issues {B} (rest : M B) h L v :
  issuesAt rest h L v ->
  issuesAt (updateStorages client d ;; rest) h
    (if HasChange_storage d then [] else L) v.
Proof.
  intros Hr. pose proof (updateStorages_run client d h) as R.
  destruct (HasChange_storage d).
  - apply (issuesAt_stuck _ _ h [] tt).
    + exists []. rewrite R. simpl. rewrite app_nil_r.
      split; [reflexivity |]. split; [apply initialSegment_nil | discriminate].
    + rewrite R. discriminate.
  - apply (issuesAt_bind _ _ h [] L tt).
    + exists []. rewrite R. simpl. rewrite app_nil_r.
      split; [reflexivity |]. split; [apply initialSegment_nil |].
      intros a Ha. split; [reflexivity | now destruct a].
    + now rewrite app_nil_r.
Qed.

Lemma Read_issues id h :
  issuesAt (resourceGridscaleServerRead client id) h [GetServer id] tt.
Proof.
  unfold resourceGridscaleServerRead.
  eapply issuesAt_eq;
    [apply (issuesAt_bind _ _ h [GetServer id] [] (client h (GetServer id)));
     [apply issuesAt_invoke |] | reflexivity].
  destruct (resp_err _) as [[code descr | | |] |];
    try apply issuesAt_raise; try apply issuesAt_ret.
  destruct (code =? 404); [apply issuesAt_ret | apply issuesAt_raise].
Qed.

Lemma power_step_issues {B} (rest : M B) h L v :
  issuesAt rest (h ++ powerCalls d) L v ->
  issuesAt
    (err <- (if power (planned d) then call client (StartServer (Id d))
             else call client (ShutdownServer (Id d))) ;;
     checkErr err ;; rest) h (powerCalls d ++ L) v.
Proof.
  unfold powerCalls. intros Hr.
  destruct (power (planned d)); now apply issuesAt_checked_call_then.
Qed.

Lemma update_issues :
  issuesAt (resourceGridscaleServerUpdate client d) [] (updateRun client d) tt.
Proof.
  unfold resourceGridscaleServerUpdate. cbv zeta.
  eapply issuesAt_eq.
  - eapply issuesAt_bind; [apply shutdown_step_issues |].
    apply issuesAt_checked_call_then.
    eapply issuesAt_bind; [apply updateIsoimage_issues |].
    eapply issuesAt_bind; [apply updateIP_issues |].
    eapply issuesAt_bind; [apply updateIP_issues |].
    rewrite needsPublicNetwork_threaded.
    eapply issuesAt_bind; [apply updatePublicNetwork_issues |].
    eapply issuesAt_bind; [apply updateNetworks_issues |].
    apply storage_step_issues.
    apply power_step_issues. apply Read_issues.
  - unfold updateRun, callsUpToStorages, callsBeforeNetworks,
      attributeCalls, convSOStrings.
    rewrite !app_nil_l. repeat rewrite <- app_assoc. reflexivity.
Qed.

End UpdateIssues.

(** * Runs that stop at the first failing call *)

Section Sound.

Variable client : Client.
Variable tolerance : Call -> error -> Prop.
Variable mayPanic : Prop.

Lemma allAccepted_app h l1 l2 :
  allAccepted client tolerance h (l1 ++ l2)
  <-> allAccepted client tolerance h l1
      /\ allAccepted client tolerance (h ++ l1) l2.
Proof.
  revert h. induction l1 as [| c l1 IH]; intros h; simpl.
  - rewrite app_nil_r. tauto.
  - rewrite IH, <- app_assoc. simpl. tauto.
Qed.

(** The computation goes on as [m'] after an accepted call. *)
Lemma stops_after_call {A} (m m' : M A) c h :
  m h = m' (h ++ [c]) -> accepted client tolerance h c ->
  stopsAtFailure client tolerance mayPanic m' (h ++ [c]) ->
  stopsAtFailure client tolerance mayPanic m h.
Proof.
  intros E Hc (l & El & R). unfold stopsAtFailure. rewrite E.
  exists (c :: l). split; [now rewrite El, <- app_assoc |].
  destruct (snd (m' (h ++ [c]))) as [a | e | r].
  - simpl. auto.
  - destruct R as (l0 & c' & -> & H0 & He).
    exists (c :: l0), c'. simpl. rewrite <- app_assoc in He. auto.
  - simpl. tauto.
Qed.

(** The computation ends with the error of the call it has just issued. *)
Lemma stops_failed_call {A} (m : M A) c h e :
  m h = (h ++ [c], Err e) -> resp_err (client h c) = Some e ->
  ~ tolerance c e ->
  stopsAtFailure client tolerance mayPanic m h.
Proof.
  intros E He Hn. unfold stopsAtFailure. rewrite E.
  exists [c]. split; [reflexivity |]. simpl.
  exists [], c. simpl. rewrite app_nil_r. auto.
Qed.

Lemma sound_ret {A} (a : A) : sound client tolerance mayPanic (ret a).
Proof. intros h. exists []. simpl. now rewrite app_nil_r. Qed.

Lemma sound_panic {A} reason :
  mayPanic -> sound client tolerance mayPanic (@panic A reason).
Proof. intros Hp h. exists []. simpl. now rewrite app_nil_r. Qed.

(** The elements of a set are handed out; a list makes the assertion
    panic. *)
Lemma sound_SetList_set elements :
  sound client tolerance mayPanic (SetList (SetValue elements)).
Proof. apply sound_ret. Qed.

Lemma sound_SetList_list elements :
  mayPanic -> sound client tolerance mayPanic (SetList (ListValue elements)).
Proof. apply sound_panic. Qed.

Lemma sound_bind {A B} (m : M A) (f : A -> M B) :
  sound client tolerance mayPanic m ->
  (forall a, sound client tolerance mayPanic (f a)) ->
  sound client tolerance mayPanic (bind m f).
Proof.
  intros Hm Hf h. destruct (Hm h) as (l1 & E1 & R1).
  unfold stopsAtFailure, bind.
  destruct (m h) as [h1 [a | e | r]]; simpl in E1, R1; subst h1.
  - destruct (Hf a (h ++ l1)) as (l2 & E2 & R2).
    exists (l1 ++ l2). split; [now rewrite E2, app_assoc |].
    destruct (snd (f a (h ++ l1))) as [b | e | r].
    + apply allAccepted_app. auto.
    + destruct R2 as (l0 & c & -> & H0 & He).
      exists (l1 ++ l0), c. rewrite app_assoc. split; [reflexivity |].
      split; [apply allAccepted_app; auto |].
      now rewrite app_assoc.
    + split; [tauto |]. apply allAccepted_app. tauto.
  - exists l1. auto.
  - exists l1. auto.
Qed.

Lemma sound_checked_call_then {B} c (rest : M B) :
  (forall e, ~ tolerance c e) ->
  sound client tolerance mayPanic rest ->
  sound client tolerance mayPanic (err <- call client c ;; checkErr err ;; rest).
Proof.
  intros Hn Hr h. destruct (resp_err (client h c)) as [e |] eqn:E.
  - apply (stops_failed_call _ c h e); [| exact E | apply Hn].
    unfold bind, call, invoke, ret. simpl. now rewrite E.
  - apply (stops_after_call _ rest c h); [| | apply Hr].
    + unfold bind, call, invoke, ret. simpl. now rewrite E.
    + unfold accepted. now rewrite E.
Qed.

Lemma sound_checked_call c :
  (forall e, ~ tolerance c e) ->
  sound client tolerance mayPanic (err <- call client c ;; checkErr err).
Proof.
  intros Hn h. destruct (resp_err (client h c)) as [e |] eqn:E.
  - apply (stops_failed_call _ c h e); [| exact E | apply Hn].
    unfold bind, call, invoke, ret. simpl. now rewrite E.
  - apply (stops_after_call _ (ret tt) c h); [| | apply sound_ret].
    + unfold bind, call, invoke, ret. simpl. now rewrite E.
    + unfold accepted. now rewrite E.
Qed.

Lemma sound_checked_invoke_then {B} c (k : Response -> M B) :
  (forall e, ~ tolerance c e) ->
  (forall r, sound client tolerance mayPanic (k r)) ->
  sound client tolerance mayPanic
    (r <- invoke client c ;; checkErr (resp_err r) ;; k r).
Proof.
  intros Hn Hk h. destruct (resp_err (client h c)) as [e |] eqn:E.
  - apply (stops_failed_call _ c h e); [| exact E | apply Hn].
    unfold bind, invoke. simpl. now rewrite E.
  - apply (stops_after_call _ (k (client h c)) c h); [| | apply Hk].
    + unfold bind, invoke. simpl. now rewrite E.
    + unfold accepted. now rewrite E.
Qed.

Lemma sound_forEach {A} (l : list A) (f : A -> M unit) :
  (forall x, sound client tolerance mayPanic (f x)) ->
  sound client tolerance mayPanic (forEach l f).
Proof.
  intros Hf. induction l as [| x l IH]; simpl.
  - apply sound_ret.
  - apply sound_bind; [apply Hf | intros _; exact IH].
Qed.

(** A call whose answer is dropped, where the tolerance lets every error of
    it pass. *)
Lemma sound_dropped_call c :
  (forall e, tolerance c e) ->
  sound client tolerance mayPanic (_ <- call client c ;; ret tt).
Proof.
  intros Ht h. apply (stops_after_call _ (ret tt) c h); [| | apply sound_ret].
  - reflexivity.
  - unfold accepted. destruct (resp_err (client h c)); auto.
Qed.

(** The read lets exactly the 404 request errors of [GetServer] pass. *)
Lemma sound_Read id :
  (forall e, tolerance (GetServer id) e
             <-> exists description, e = RequestError 404 description) ->
  sound client tolerance mayPanic (resourceGridscaleServerRead client id).
Proof.
  intros Ht h. unfold resourceGridscaleServerRead.
  assert (Hn : forall e, (forall description, e <> RequestError 404 description) ->
                         ~ tolerance (GetServer id) e).
  { intros e He T. apply Ht in T as (description & ->). now apply (He description). }
  destruct (resp_err (client h (GetServer id))) as [e |] eqn:E.
  - destruct e as [code descr | | |];
      try (eapply (stops_failed_call _ (GetServer id) h);
           [| exact E | apply Hn; discriminate];
           unfold bind, invoke; simpl; now rewrite E).
    destruct (code =? 404) eqn:C.
    + apply (stops_after_call _ (ret tt) (GetServer id) h); [| | apply sound_ret].
      * unfold bind, invoke. simpl. now rewrite E, C.
      * unfold accepted. rewrite E.
        apply Z.eqb_eq in C. subst code. apply Ht. eauto.
    + eapply (stops_failed_call _ (GetServer id) h); [| exact E |].
      * unfold bind, invoke. simpl. now rewrite E, C.
      * apply Hn. intros description H. inversion H; subst.
        now rewrite Z.eqb_refl in C.
  - apply (stops_after_call _ (ret tt) (GetServer id) h); [| | apply sound_ret].
    + unfold bind, invoke. simpl. now rewrite E.
    + unfold accepted. now rewrite E.
Qed.

End Sound.

(** The tolerances let no error of a call pass that is neither [GetServer]
    nor, on the create path, [StartServer]. *)
Ltac not_tolerated :=
  let e := fresh "e" in
  let H := fresh "H" in
  intros e H; unfold createTolerance, readTolerance in H;
  decompose [ex and or] H; congruence.

Lemma readTolerance_GetServer id e :
  readTolerance (GetServer id) e
  <-> exists description, e = RequestError 404 description.
Proof.
  split.
  - intros (id' & description & _ & ->). eauto.
  - intros (description & ->). exists id, description. auto.
Qed.

Lemma createTolerance_GetServer id e :
  createTolerance (GetServer id) e
  <-> exists description, e = RequestError 404 description.
Proof.
  unfold createTolerance. split.
  - intros [H | (id' & H)]; [now apply readTolerance_GetServer in H |].
    discriminate H.
  - intros H. left. now apply readTolerance_GetServer.
Qed.

Ltac sound_step :=
  first
    [ apply sound_ret
    | match goal with
      | |- sound _ readTolerance _ (resourceGridscaleServerRead _ _) =>
          apply sound_Read; apply readTolerance_GetServer
      | |- sound _ createTolerance _ (resourceGridscaleServerRead _ _) =>
          apply sound_Read; apply createTolerance_GetServer
      end
    | apply sound_checked_call; [not_tolerated]
    | apply sound_checked_call_then; [not_tolerated |]
    | apply sound_checked_invoke_then; [not_tolerated | intros ?]
    | apply sound_SetList_set
    | match goal with
      | |- sound _ _ _ (bind (if ?b then _ else _) _) => destruct b
      end
    | apply sound_forEach; intros ?
    | apply sound_bind; [| intros ?]
    | match goal with
      | |- sound _ _ _ (if ?b then _ else _) => destruct b
      end ].

(** The storage block panics only when the storage list changed. *)
Lemma updateStorages_sound (client : Client) (d : ResourceData)
    (tolerance : Call -> error -> Prop) :
  sound client tolerance (HasChange_storage d = true) (updateStorages client d).
Proof.
  intros h. exists []. rewrite updateStorages_run, app_nil_r.
  destruct (HasChange_storage d); simpl; auto.
Qed.

(** The steps of an update that precede the storage block check the answer
    of each call and never panic. *)
Lemma updateIsoimage_sound (client : Client) (d : ResourceData) mayPanic :
  sound client readTolerance mayPanic (updateIsoimage client d).
Proof. unfold updateIsoimage. cbv zeta. repeat sound_step. Qed.

Lemma updateIP_sound (client : Client) (d : ResourceData) mayPanic
    hasChange oldIp newIp needs :
  sound client readTolerance mayPanic
    (updateIP client d hasChange oldIp newIp needs).
Proof. unfold updateIP. repeat sound_step. Qed.

Lemma updatePublicNetwork_sound (client : Client) (d : ResourceData) mayPanic
    needs :
  sound client readTolerance mayPanic (updatePublicNetwork client d needs).
Proof. unfold updatePublicNetwork. repeat sound_step. Qed.

Lemma updateNetworks_sound (client : Client) (d : ResourceData) mayPanic :
  sound client readTolerance mayPanic (updateNetworks client d).
Proof.
  unfold updateNetworks, Get_network. cbv zeta. repeat sound_step.
Qed.

(** On every run the update path checks the answer of each call, and it
    panics only when the storage list changed. *)
Lemma update_sound (client : Client) (d : ResourceData) :
  sound client readTolerance (HasChange_storage d = true)
    (resourceGridscaleServerUpdate client d).
Proof.
  unfold resourceGridscaleServerUpdate. cbv zeta.
  apply sound_bind; [repeat sound_step | intros _].
  apply sound_checked_call_then; [not_tolerated |].
  apply sound_bind; [apply updateIsoimage_sound | intros _].
  apply sound_bind; [apply updateIP_sound | intros ?].
  apply sound_bind; [apply updateIP_sound | intros ?].
  apply sound_bind; [apply updatePublicNetwork_sound | intros _].
  apply sound_bind; [apply updateNetworks_sound | intros _].
  apply sound_bind; [apply updateStorages_sound | intros _].
  repeat sound_step.
Qed.

(** * The update path on every run *)

Lemma issuesAt_run {A} (m : M A) (L : list Call) (v : A) :
  issuesAt m [] L v ->
  initialSegment (fst (m [])) L
  /\ (forall a, snd (m []) = Ok a -> fst (m []) = L).
Proof.
  intros (l & E & S & V). simpl in E. rewrite E. split; [exact S |].
  intros a Ha. now destruct (V a Ha).
Qed.

Lemma update_run_segment (client : Client) (d : ResourceData) :
  initialSegment (trace (update d client)) (updateRun client d).
Proof. exact (proj1 (issuesAt_run _ _ _ (update_issues client d))). Qed.

(** A successful update found the storage list unchanged. *)
Lemma update_ok_storage (client : Client) (d : ResourceData) t u :
  update d client = (t, Ok u) -> HasChange_storage d = false.
Proof.
  unfold update, resourceGridscaleServerUpdate. cbv zeta. intros H.
  apply bind_ok in H as (v1 & h1 & _ & H).
  apply bind_ok in H as (err & h2 & _ & H).
  apply bind_ok in H as (v2 & h2' & _ & H).
  apply bind_ok in H as (v3 & h3 & _ & H).
  apply bind_ok in H as (n4 & h4 & _ & H).
  apply bind_ok in H as (n6 & h6 & _ & H).
  apply bind_ok in H as (v5 & h5 & _ & H).
  apply bind_ok in H as (v7 & h7 & _ & H).
  apply bind_ok in H as (v8 & h8 & H8 & _).
  now apply updateStorages_ok in H8.
Qed.

Lemma bind_panic {A B} (m : M A) (f : A -> M B) h h' r :
  bind m f h = (h', Panic r) ->
  m h = (h', Panic r)
  \/ exists a h1, m h = (h1, Ok a) /\ f a h1 = (h', Panic r).
Proof.
  unfold bind. destruct (m h) as [h1 [a | e | r1]]; intros H;
    [eauto | discriminate H | left; now inversion H].
Qed.

(** A computation that is sound where nothing may panic does not panic. *)
Lemma sound_no_panic {A} (client : Client) tolerance (m : M A) h h' r :
  sound client tolerance False m -> m h = (h', Panic r) -> False.
Proof.
  intros S E. destruct (S h) as (l & _ & R). rewrite E in R. simpl in R. tauto.
Qed.

Ltac never_panics H client :=
  exfalso; revert H;
  apply (sound_no_panic client readTolerance);
  first [ apply updateIsoimage_sound | apply updateIP_sound
        | apply updatePublicNetwork_sound | apply updateNetworks_sound
        | repeat sound_step ].

(** An update panics only at the storage block: the storage list changed,
    and the calls up to that block have been issued. *)
Lemma update_panic_trace (client : Client) (d : ResourceData) t r :
  update d client = (t, Panic r) ->
  t = callsUpToStorages client d /\ r = notASet
  /\ HasChange_storage d = true.
Proof.
  unfold update, resourceGridscaleServerUpdate. cbv zeta. intros H.
  apply bind_panic in H as [H | (v1 & h1 & H1 & H)]; [never_panics H client |].
  apply shutdown_step_ok in H1.
  apply bind_panic in H as [H | (err & h2 & H2 & H)];
    [unfold call, bind, invoke, ret in H; discriminate H |].
  apply bind_panic in H as [H | (v2 & h2' & H2' & H)];
    [destruct err; discriminate H |].
  assert (E2 : h2' = h1 ++ attributeCalls d).
  { assert (Hc : (e <- call client (UpdateServer (Id d)
                         (mkUpdateRequest (name (planned d))
                            (availability_zone (planned d))
                            (convSOStrings (labels (planned d)))
                            (cores (planned d)) (memory (planned d)))) ;;
                  checkErr e) h1 = (h2', Ok v2)).
    { unfold bind at 1. rewrite H2. exact H2'. }
    now apply call_check_ok in Hc as [-> _]. }
  apply bind_panic in H as [H | (v3 & h3 & H3 & H)]; [never_panics H client |].
  apply updateIsoimage_ok in H3.
  apply bind_panic in H as [H | (n4 & h4 & H4 & H)]; [never_panics H client |].
  apply updateIP_ok in H4 as [H4 N4].
  apply bind_panic in H as [H | (n6 & h6 & H6 & H)]; [never_panics H client |].
  apply updateIP_ok in H6 as [H6 N6].
  rewrite N4 in N6. rewrite needsPublicNetwork_threaded in N6. subst n6.
  apply bind_panic in H as [H | (v5 & h5 & H5 & H)]; [never_panics H client |].
  apply updatePublicNetwork_ok in H5.
  apply bind_panic in H as [H | (v7 & h7 & H7 & H)]; [never_panics H client |].
  apply updateNetworks_ok in H7.
  apply bind_panic in H as [H | (v8 & h8 & H8 & H)]; [| never_panics H client].
  rewrite updateStorages_run in H.
  destruct (HasChange_storage d); [| discriminate H].
  inversion H; subst.
  split; [| split; reflexivity].
  unfold callsUpToStorages, callsBeforeNetworks.
  rewrite !app_nil_l. repeat rewrite <- app_assoc. reflexivity.
Qed.

(** X1: on every run, failing or not, the calls the update has issued are an
    initial segment of [updateRun]: the shutdown if required, [UpdateServer],
    the ISO call, the address calls, the public-network calls, the network
    unlinks and links and, when the storage list did not change, the
    power-state call and the closing read.  A successful update has issued
    all of them, and found the storage list unchanged. *)
Theorem update_calls_initial_segment (client : Client) (d : ResourceData) :
  (exists k, trace (update d client) = firstn k (updateRun client d))
  /\ (forall u, outcome (update d client) = Ok u ->
      trace (update d client) = updateRun client d
      /\ HasChange_storage d = false).
Proof.
  destruct (issuesAt_run _ _ _ (update_issues client d)) as [S V].
  split; [now apply initialSegment_firstn |].
  intros u Hu. split; [exact (V u Hu) |].
  apply (update_ok_storage client d (trace (update d client)) u).
  rewrite <- Hu. unfold trace, outcome. now destruct (update d client).
Qed.

Lemma update_calls_initial_segment_witness :
  outcome (update dNetworks okClient) = Ok tt
  /\ trace (update dNetworks okClient) = updateRun okClient dNetworks
  /\ HasChange_storage dNetworks = false.
Proof.
  split; [reflexivity |].
  exact (proj2 (update_calls_initial_segment okClient dNetworks) tt eq_refl).
Defined.

Lemma count_initialSegment (p : Call -> bool) (l L : list Call) :
  initialSegment l L -> (count p l <= count p L)%nat.
Proof.
  intros (rest & ->). unfold count. rewrite filter_app, length_app. lia.
Qed.

Lemma count_zero (p : Call -> bool) (l : list Call) :
  Forall (fun c => p c = false) l -> count p l = 0%nat.
Proof. intros H. unfold count. now rewrite filter_none. Qed.

Lemma count_map_zero {A} (p : Call -> bool) (f : A -> Call) (l : list A) :
  (forall x, p (f x) = false) -> count p (map f l) = 0%nat.
Proof.
  intros H. apply count_zero. apply Forall_forall. intros c Hc.
  apply in_map_iff in Hc as (x & <- & _). apply H.
Qed.

(** No call up to the storage block reads the server. *)
Lemma callsUpToStorages_no_read (client : Client) (d : ResourceData) :
  count isGetServer (callsUpToStorages client d) = 0%nat.
Proof.
  unfold callsUpToStorages, callsBeforeNetworks. cbv zeta.
  rewrite !count_app.
  assert (E1 : count isGetServer (shutdownCalls d) = 0%nat)
    by (unfold shutdownCalls; now destruct (shutdownRequired d)).
  assert (E2 : count isGetServer (isoimageCalls d) = 0%nat).
  { unfold isoimageCalls. destruct (HasChange_isoimage d); [| reflexivity].
    now destruct (isoimage (planned d) =? "")%string. }
  assert (E3 : forall c o n, count isGetServer (ipCalls d c o n) = 0%nat).
  { intros c o n. unfold ipCalls. destruct c; [| reflexivity].
    now destruct (n =? "")%string. }
  assert (E5 : count isGetServer (networkCalls d) = 0%nat).
  { unfold networkCalls. destruct (HasChange_network d); [| reflexivity].
    rewrite count_app. now rewrite !count_map_zero by reflexivity. }
  rewrite E1, E2, !E3, E5.
  unfold publicNetworkCalls. rewrite count_app.
  destruct (unlinksPublicNetwork d), (linksPublicNetwork d); reflexivity.
Qed.

(** X2: the update stops at the first call the client answers with an
    error, the 404 request error of the closing read aside, and returns
    that error, every earlier call having been answered without error.  It
    succeeds only when every call was answered without error, or the closing
    read with a 404; it panics only when the storage list changed.  And when
    the closing read is answered with a 404 request error, the update
    succeeds. *)
Theorem update_stops_at_first_failure (client : Client) (d : ResourceData) :
  match outcome (update d client) with
  | Ok _ => allAccepted client readTolerance [] (trace (update d client))
  | Err e =>
      exists h c,
        trace (update d client) = h ++ [c]
        /\ allAccepted client readTolerance [] h
        /\ resp_err (client h c) = Some e
        /\ ~ readTolerance c e
  | Panic _ =>
      HasChange_storage d = true
      /\ allAccepted client readTolerance [] (trace (update d client))
  end
  /\ (forall h description,
        trace (update d client) = h ++ [GetServer (Id d)] ->
        resp_err (client h (GetServer (Id d)))
        = Some (RequestError 404 description) ->
        outcome (update d client) = Ok tt).
Proof.
  destruct (update_sound client d []) as (l & E & R).
  pose proof (update_panic_trace client d) as P.
  unfold outcome, trace, update in *. simpl in E.
  destruct (resourceGridscaleServerUpdate client d []) as [t o].
  simpl in *. subst t. split.
  - destruct o; [exact R | | exact R].
    destruct R as (l0 & c & -> & H0 & He). eauto.
  - intros h description Ht Hr. destruct o as [[] | e | r].
    + reflexivity.
    + exfalso. destruct R as (l0 & c & -> & _ & He & Hn).
      apply app_inj_tail in Ht as [-> ->].
      rewrite Hr in He. inversion He; subst e.
      apply Hn. red. eauto.
    + exfalso. destruct (P l r eq_refl) as (El & _).
      pose proof (callsUpToStorages_no_read client d) as Hc.
      rewrite <- El, Ht, count_app in Hc. unfold count in Hc. simpl in Hc. lia.
Qed.

(** The run starts with the call it checks first. *)
Lemma first_checked_call {B} (client : Client) c (rest : M B) :
  emits (fun _ => True) rest ->
  exists post, fst ((err <- call client c ;; checkErr err ;; rest) []) = c :: post.
Proof.
  intros Hr. unfold bind at 1 2. unfold call, bind, invoke, ret. simpl.
  destruct (resp_err (client [] c)); simpl; [now exists [] |].
  destruct (Hr [c]) as (post & E & _). exists post. now rewrite E.
Qed.

Lemma first_checked_step {B} (client : Client) c (rest : M B) :
  emits (fun _ => True) rest ->
  exists post,
    fst (((err <- call client c ;; checkErr err) ;; rest) []) = c :: post.
Proof.
  intros Hr. unfold bind at 1 2. unfold call, bind, invoke, ret. simpl.
  destruct (resp_err (client [] c)); simpl; [now exists [] |].
  destruct (Hr [c]) as (post & E & _). exists post. now rewrite E.
Qed.

(** X3: every update starts with [ShutdownServer] when a shutdown is
    required and with [UpdateServer] otherwise. *)
Theorem update_first_call (client : Client) (d : ResourceData) :
  exists rest,
    trace (update d client)
    = (if shutdownRequired d then ShutdownServer (Id d)
       else UpdateServer (Id d) (updateBody (planned d))) :: rest.
Proof.
  unfold trace, update, resourceGridscaleServerUpdate, updateBody. cbv zeta.
  destruct (shutdownRequired d).
  - apply first_checked_step.
    unfold updateIsoimage, updateIP, updatePublicNetwork, updateNetworks,
      updateStorages, resourceGridscaleServerRead.
    cbv zeta. repeat emits_step; exact I.
  - unfold bind at 1. unfold ret at 1.
    apply first_checked_call.
    unfold updateIsoimage, updateIP, updatePublicNetwork, updateNetworks,
      updateStorages, resourceGridscaleServerRead.
    cbv zeta. repeat emits_step; exact I.
Qed.

Lemma split_after_prefix (p : Call -> bool) (A B h X : list Call) (c : Call) :
  Forall (fun a => p a = false) A -> p c = true ->
  h ++ c :: X = A ++ B -> exists h', h = A ++ h'.
Proof.
  intros HA Hc. revert h. induction HA as [| a A Ha _ IH]; intros h E.
  - now exists h.
  - destruct h as [| b h]; simpl in E; inversion E; subst.
    + congruence.
    + destruct (IH h H1) as (h' & ->). now exists h'.
Qed.

(** X4: on every run, [UpdateServer] has been issued before any link or
    unlink call. *)
Theorem update_attributes_before_links (client : Client) (d : ResourceData)
    (h rest : list Call) (c : Call) :
  trace (update d client) = h ++ c :: rest -> isLinkCall c = true ->
  In (UpdateServer (Id d) (updateBody (planned d))) h.
Proof.
  intros Ht Hc.
  destruct (update_run_segment client d) as (more & S). rewrite Ht in S.
  assert (T : exists tail,
             updateRun client d
             = (shutdownCalls d ++ attributeCalls d) ++ tail).
  { eexists. unfold updateRun, callsUpToStorages, callsBeforeNetworks.
    cbv zeta. repeat rewrite <- app_assoc. reflexivity. }
  destruct T as (tail & T). rewrite T in S.
  symmetry in S. rewrite <- app_assoc in S. simpl in S.
  apply (split_after_prefix isLinkCall) in S as (h' & ->); [| | exact Hc].
  - apply in_or_app. left. apply in_or_app. right. now left.
  - apply Forall_app. split.
    + unfold shutdownCalls. destruct (shutdownRequired d); repeat constructor.
    + repeat constructor.
Qed.

Lemma update_attributes_before_links_witness :
  trace (update dNetworks okClient)
  = [ShutdownServer "srv"; UpdateServer "srv" (updateBody (planned dNetworks))]
    ++ UnlinkNetwork "srv" "A"
       :: [UnlinkNetwork "srv" "B"; LinkNetwork "srv" "B" "" false 0;
           LinkNetwork "srv" "C" "" false 0; StartServer "srv";
           GetServer "srv"]
  /\ In (UpdateServer (Id dNetworks) (updateBody (planned dNetworks)))
       [ShutdownServer "srv";
        UpdateServer "srv" (updateBody (planned dNetworks))].
Proof.
  split; [reflexivity |].
  exact (update_attributes_before_links okClient dNetworks
           [ShutdownServer "srv";
            UpdateServer "srv" (updateBody (planned dNetworks))]
           [UnlinkNetwork "srv" "B"; LinkNetwork "srv" "B" "" false 0;
            LinkNetwork "srv" "C" "" false 0; StartServer "srv";
            GetServer "srv"]
           (UnlinkNetwork "srv" "A") eq_refl eq_refl).
Defined.

(** The public-network block runs at most one of its two branches: where no
    address is left, every changed family had an address before. *)
Lemma public_network_unlink_excludes_link (d : ResourceData) :
  unlinksPublicNetwork d = true -> linksPublicNetwork d = false.
Proof.
  unfold unlinksPublicNetwork, linksPublicNetwork, needsPublicNetwork,
    HasChange_ipv4, HasChange_ipv6, HasChange.
  destruct (string_dec (ipv4 (prior d)) (ipv4 (planned d))) as [E4 | E4];
  destruct (string_dec (ipv6 (prior d)) (ipv6 (planned d))) as [E6 | E6];
  destruct (String.eqb_spec (ipv4 (planned d)) "") as [N4 | N4];
  destruct (String.eqb_spec (ipv6 (planned d)) "") as [N6 | N6];
  destruct (String.eqb_spec (ipv4 (prior d)) "") as [P4 | P4];
  destruct (String.eqb_spec (ipv6 (prior d)) "") as [P6 | P6];
  simpl; intros H; try reflexivity; try discriminate; congruence.
Qed.

Lemma public_lookups_of_update (client : Client) (d : ResourceData) :
  count isGetNetworkPublic (updateRun client d)
  = ((if unlinksPublicNetwork d then 1 else 0)
     + (if linksPublicNetwork d then 1 else 0))%nat.
Proof.
  unfold updateRun, callsUpToStorages, callsBeforeNetworks. cbv zeta.
  rewrite !count_app.
  assert (E1 : count isGetNetworkPublic (shutdownCalls d) = 0%nat)
    by (unfold shutdownCalls; now destruct (shutdownRequired d)).
  assert (E2 : count isGetNetworkPublic (isoimageCalls d) = 0%nat).
  { unfold isoimageCalls. destruct (HasChange_isoimage d); [| reflexivity].
    now destruct (isoimage (planned d) =? "")%string. }
  assert (E3 : forall c o n, count isGetNetworkPublic (ipCalls d c o n) = 0%nat).
  { intros c o n. unfold ipCalls. destruct c; [| reflexivity].
    now destruct (n =? "")%string. }
  assert (E5 : count isGetNetworkPublic (networkCalls d) = 0%nat).
  { unfold networkCalls. destruct (HasChange_network d); [| reflexivity].
    rewrite count_app. now rewrite !count_map_zero by reflexivity. }
  assert (E7 : count isGetNetworkPublic
                 (if HasChange_storage d then []
                  else powerCalls d ++ [GetServer (Id d)]) = 0%nat).
  { unfold powerCalls.
    now destruct (HasChange_storage d), (power (planned d)). }
  rewrite E1, E2, !E3, E5, E7.
  unfold publicNetworkCalls. rewrite count_app.
  destruct (unlinksPublicNetwork d), (linksPublicNetwork d); reflexivity.
Qed.

(** X5: on every run the update looks the public network up at most once;
    when neither address changed it does not look it up at all. *)
Theorem update_public_network_at_most_once (client : Client)
    (d : ResourceData) :
  (count isGetNetworkPublic (trace (update d client)) <= 1)%nat
  /\ (ipv4 (prior d) = ipv4 (planned d) -> ipv6 (prior d) = ipv6 (planned d) ->
      count isGetNetworkPublic (trace (update d client)) = 0%nat).
Proof.
  pose proof (update_run_segment client d) as Hk.
  apply (count_initialSegment isGetNetworkPublic) in Hk.
  rewrite public_lookups_of_update in Hk.
  split.
  - destruct (unlinksPublicNetwork d) eqn:U.
    + rewrite (public_network_unlink_excludes_link d U) in Hk. simpl in Hk. lia.
    + destruct (linksPublicNetwork d); simpl in Hk; lia.
  - intros E4 E6.
    assert (C4 : HasChange_ipv4 d = false) by now apply HasChange_false.
    assert (C6 : HasChange_ipv6 d = false) by now apply HasChange_false.
    unfold unlinksPublicNetwork, linksPublicNetwork in Hk.
    rewrite C4, C6 in Hk. simpl in Hk. lia.
Qed.

Lemma update_public_network_at_most_once_witness :
  ipv4 (prior dNetworks) = ipv4 (planned dNetworks)
  /\ ipv6 (prior dNetworks) = ipv6 (planned dNetworks)
  /\ count isGetNetworkPublic (trace (update dNetworks okClient)) = 0%nat.
Proof.
  split; [reflexivity |]. split; [reflexivity |].
  exact (proj2 (update_public_network_at_most_once okClient dNetworks)
           eq_refl eq_refl).
Defined.

(** X6: on every run each call of the update that names a server names the
    server being updated, and the update never looks up an IP version, never
    creates, stops or deletes a server and never links an ISO image. *)
Theorem update_calls_on_own_server (client : Client) (d : ResourceData) :
  Forall (updateCallOn (Id d)) (trace (update d client)).
Proof.
  apply emits_Forall.
  unfold resourceGridscaleServerUpdate, updateIsoimage, updateIP,
    updatePublicNetwork, updateNetworks, updateStorages,
    resourceGridscaleServerRead.
  cbv zeta. repeat emits_step; simpl; auto.
Qed.

(** X7: an update whose storage list changed never succeeds and issues no
    storage call: it ends with the error of a call that precedes the storage
    block, or it panics at the first loop header of that block, having
    issued exactly the calls up to it. *)
Theorem update_storage_change_panics (client : Client) (d : ResourceData) :
  HasChange_storage d = true ->
  count isStorageCall (trace (update d client)) = 0%nat
  /\ initialSegment (trace (update d client)) (callsUpToStorages client d)
  /\ ((exists h c e,
         update d client = (h ++ [c], Err e)
         /\ resp_err (client h c) = Some e)
      \/ update d client = (callsUpToStorages client d, Panic notASet)).
Proof.
  intros Hc.
  pose proof (update_run_segment client d) as S.
  unfold updateRun in S. rewrite Hc, app_nil_r in S.
  split; [| split; [exact S |]].
  - apply (count_initialSegment isStorageCall) in S.
    assert (Z0 : count isStorageCall (callsUpToStorages client d) = 0%nat).
    { unfold callsUpToStorages, callsBeforeNetworks. cbv zeta.
      rewrite !count_app.
      assert (E1 : count isStorageCall (shutdownCalls d) = 0%nat)
        by (unfold shutdownCalls; now destruct (shutdownRequired d)).
      assert (E2 : count isStorageCall (isoimageCalls d) = 0%nat).
      { unfold isoimageCalls. destruct (HasChange_isoimage d); [| reflexivity].
        now destruct (isoimage (planned d) =? "")%string. }
      assert (E3 : forall c o n, count isStorageCall (ipCalls d c o n) = 0%nat).
      { intros c o n. unfold ipCalls. destruct c; [| reflexivity].
        now destruct (n =? "")%string. }
      assert (E5 : count isStorageCall (networkCalls d) = 0%nat).
      { unfold networkCalls. destruct (HasChange_network d); [| reflexivity].
        rewrite count_app. now rewrite !count_map_zero by reflexivity. }
      rewrite E1, E2, !E3, E5.
      unfold publicNetworkCalls. rewrite count_app.
      destruct (unlinksPublicNetwork d), (linksPublicNetwork d); reflexivity. }
    lia.
  - destruct (update_sound client d []) as (l & E & R).
    pose proof (update_panic_trace client d) as P.
    pose proof (update_ok_storage client d) as O.
    unfold update in *. simpl in E.
    destruct (resourceGridscaleServerUpdate client d []) as [t o].
    simpl in *. subst t. destruct o as [u | e | r].
    + specialize (O l u eq_refl). congruence.
    + left. destruct R as (l0 & c & -> & _ & He & _). eauto.
    + right. destruct (P l r eq_refl) as (-> & -> & _). reflexivity.
Qed.

Lemma update_storage_change_panics_witness :
  HasChange_storage dStorages = true
  /\ update dStorages okClient
     = (callsUpToStorages okClient dStorages, Panic notASet).
Proof.
  split; [reflexivity |].
  destruct (update_storage_change_panics okClient dStorages eq_refl)
    as (_ & _ & [(h & c & e & H & _) | H]); [| exact H].
  exfalso. vm_compute in H. discriminate H.
Defined.

(** * The create path on every run *)

Lemma issuesAt_conv {A} (m : M A) h L L' (v v' : A) :
  issuesAt m h L v -> L = L' -> v = v' -> issuesAt m h L' v'.
Proof. now intros H <- <-. Qed.

Lemma createNetworks_spec (acc : list ServerCreateRequestNetwork)
    (l : list Attachment) :
  createNetworks acc l
  = acc ++ map (fun n => mkCreateNetwork (object_uuid n) (bootdevice n)) l.
Proof.
  unfold createNetworks. revert acc.
  induction l as [| n l IH]; intros acc; simpl; [now rewrite app_nil_r |].
  now rewrite IH, <- app_assoc.
Qed.

(** With a storage in the desired state the create path panics at its first
    loop header, before any call. *)
Lemma create_storage_panic (client : Client) (d : ResourceData) :
  storage (planned d) <> [] -> create d client = ([], Panic notASet).
Proof.
  intros Hs. unfold create, resourceGridscaleServerCreate, createRequestBody.
  cbv zeta. unfold Get_storage.
  destruct (storage (planned d)) as [| s l]; [now destruct Hs | reflexivity].
Qed.

(** The request body is built only when the desired state has no storage. *)
Lemma createRequestBody_ok_storage (client : Client) (d : ResourceData) h t body :
  createRequestBody client d h = (t, Ok body) -> storage (planned d) = [].
Proof.
  unfold createRequestBody. cbv zeta. unfold Get_storage.
  destruct (storage (planned d)) as [| s l]; [reflexivity |].
  intros H. discriminate H.
Qed.

Section CreateIssues.

Variable client : Client.
Variable d : ResourceData.

Lemma createPublicIP_issues attr version acc h :
  issuesAt (createPublicIP client attr version acc) h
    (versionLookup attr) (acc ++ requestedIP attr).
Proof.
  unfold createPublicIP, versionLookup, requestedIP.
  destruct (GetOk_string attr).
  - apply (issuesAt_bind _ _ h [GetIPVersion attr] []
             (client h (GetIPVersion attr))); [apply issuesAt_invoke |].
    destruct (negb _); [apply issuesAt_raise | apply issuesAt_ret].
  - rewrite app_nil_r. apply issuesAt_ret.
Qed.

Lemma createPublicNetwork_issues (b : bool) h :
  issuesAt
    (if b then
       publicNetwork <- invoke client GetNetworkPublic ;;
       checkErr (resp_err publicNetwork) ;;
       ret [mkCreateNetwork (resp_uuid publicNetwork) false]
     else ret [])
    h (if b then [GetNetworkPublic] else [])
    (if b then [mkCreateNetwork (resp_uuid (client h GetNetworkPublic)) false]
     else []).
Proof.
  destruct b; [| apply issuesAt_ret].
  apply (issuesAt_bind _ _ h [GetNetworkPublic] []
           (client h GetNetworkPublic)); [apply issuesAt_invoke |].
  apply (issuesAt_bind _ _ _ [] [] tt); [apply issuesAt_checkErr |].
  apply issuesAt_ret.
Qed.

Lemma createNetworks_issues (networks : list ServerCreateRequestNetwork) h :
  issuesAt
    (if GetOk_list (network (planned d)) then
       values <- SetList (Get_network (planned d)) ;;
       ret (createNetworks networks values)
     else ret networks)
    h []
    (networks
     ++ map (fun n => mkCreateNetwork (object_uuid n) (bootdevice n))
          (network (planned d))).
Proof.
  unfold Get_network. rewrite bind_SetList_set.
  destruct (network (planned d)) as [| n l]; simpl GetOk_list; cbv iota.
  - simpl. rewrite app_nil_r. apply issuesAt_ret.
  - rewrite <- createNetworks_spec. apply issuesAt_ret.
Qed.

Lemma requested_addresses (a b : string) :
  (0 <? Z.of_nat (length (([] ++ requestedIP a) ++ requestedIP b)))
  = GetOk_string a || GetOk_string b.
Proof.
  unfold requestedIP. now destruct (GetOk_string a), (GetOk_string b).
Qed.

Lemma createRequestBody_issues :
  storage (planned d) = [] ->
  issuesAt (createRequestBody client d) [] (createLookups d)
    (createRequest client d).
Proof.
  intros Es. unfold createRequestBody. cbv zeta. rewrite Es.
  simpl GetOk_list. cbv iota.
  eapply issuesAt_conv.
  - eapply issuesAt_bind; [apply issuesAt_ret |].
    eapply issuesAt_bind; [apply createPublicIP_issues |].
    eapply issuesAt_bind; [apply createPublicIP_issues |].
    rewrite requested_addresses.
    eapply issuesAt_bind; [apply createPublicNetwork_issues |].
    eapply issuesAt_bind; [apply createNetworks_issues |].
    apply issuesAt_ret.
  - unfold createLookups. rewrite !app_nil_r. reflexivity.
  - unfold createRequest, convSOStrings. reflexivity.
Qed.

Lemma createLinkStorages_issues id h :
  storage (planned d) = [] ->
  issuesAt (createLinkStorages client d id) h [] tt.
Proof.
  intros Es. unfold createLinkStorages. cbv zeta. rewrite Es.
  apply issuesAt_ret.
Qed.

Lemma createStart_issues id h :
  issuesAt
    (if power (planned d) then _ <- call client (StartServer id) ;; ret tt
     else ret tt)
    h (if power (planned d) then [StartServer id] else []) tt.
Proof.
  destruct (power (planned d)); [| apply issuesAt_ret].
  apply (issuesAt_bind _ _ h [StartServer id] []
           (resp_err (client h (StartServer id))));
    [apply issuesAt_call | apply issuesAt_ret].
Qed.

Lemma create_issues :
  storage (planned d) = [] ->
  issuesAt (resourceGridscaleServerCreate client d) [] (createCalls client d) tt.
Proof.
  intros Es. unfold resourceGridscaleServerCreate, createCalls.
  eapply issuesAt_bind; [now apply createRequestBody_issues |].
  apply (issuesAt_bind _ _ _ [CreateServer (createRequest client d)]
           (postCreateCalls d (createdId client d))
           (client (createLookups d) (CreateServer (createRequest client d))));
    [apply issuesAt_invoke |].
  destruct (resp_err _); [apply issuesAt_raise |].
  cbv zeta. fold (createdId client d). unfold postCreateCalls.
  apply (issuesAt_bind _ _ _ [] _ tt); [now apply createLinkStorages_issues |].
  eapply issuesAt_bind; [apply createStart_issues |].
  apply Read_issues.
Qed.

End CreateIssues.

Lemma create_run_segment (client : Client) (d : ResourceData) :
  initialSegment (trace (create d client)) (createRun client d).
Proof.
  unfold createRun. destruct (storage (planned d)) as [| s l] eqn:Es.
  - exact (proj1 (issuesAt_run _ _ _ (create_issues client d Es))).
  - unfold trace. rewrite create_storage_panic by (rewrite Es; discriminate).
    apply initialSegment_nil.
Qed.

(** X8: on every run, failing or not, the calls the create path has issued
    are an initial segment of [createRun]: nothing when the desired state
    has a storage, and otherwise the version look-ups of the requested
    addresses, the public-network look-up when an address is requested,
    [CreateServer], [StartServer] when power is desired, and the closing
    read.  A successful create has issued all of them, for a desired state
    without storage. *)
Theorem create_calls_initial_segment (client : Client) (d : ResourceData) :
  (exists k, trace (create d client) = firstn k (createRun client d))
  /\ (forall u, outcome (create d client) = Ok u ->
      storage (planned d) = []
      /\ trace (create d client) = createCalls client d).
Proof.
  split; [apply initialSegment_firstn, create_run_segment |].
  intros u Hu. destruct (storage (planned d)) as [| s l] eqn:Es.
  - split; [reflexivity |].
    exact (proj2 (issuesAt_run _ _ _ (create_issues client d Es)) u Hu).
  - unfold outcome in Hu.
    rewrite create_storage_panic in Hu by (rewrite Es; discriminate).
    discriminate Hu.
Qed.

Lemma create_calls_initial_segment_witness :
  outcome (create dAddressAndNetwork okClient) = Ok tt
  /\ storage (planned dAddressAndNetwork) = []
  /\ trace (create dAddressAndNetwork okClient)
     = createCalls okClient dAddressAndNetwork.
Proof.
  split; [reflexivity |].
  exact (proj2 (create_calls_initial_segment okClient dAddressAndNetwork)
           tt eq_refl).
Defined.

Lemma createCalls_CreateServer (client : Client) (d : ResourceData)
    (body : ServerCreateRequest) :
  In (CreateServer body) (createCalls client d) -> body = createRequest client d.
Proof.
  unfold createCalls, createLookups, postCreateCalls, versionLookup.
  intros H. repeat (apply in_app_or in H as [H | H]).
  - destruct (GetOk_string _); simpl in H; intuition discriminate.
  - destruct (GetOk_string _); simpl in H; intuition discriminate.
  - destruct (_ || _); simpl in H; intuition discriminate.
  - simpl in H. destruct H as [H | []]. now inversion H.
  - destruct (power _); simpl in H; intuition discriminate.
  - simpl in H. intuition discriminate.
Qed.

Lemma createCalls_one_CreateServer (client : Client) (d : ResourceData) :
  count isCreateServer (createCalls client d) = 1%nat.
Proof.
  unfold createCalls, createLookups, postCreateCalls, versionLookup.
  rewrite !count_app.
  destruct (GetOk_string (ipv4 (planned d))),
    (GetOk_string (ipv6 (planned d))), (power (planned d)); reflexivity.
Qed.

(** X9: on every run the create path issues [CreateServer] at most once,
    and only for a desired state without storage; the request it sends is
    [createRequest]: the desired attributes, the ISO image if one is set,
    the public network (when an address is requested) followed by the
    desired networks, the requested addresses, and no storage. *)
Theorem create_request_sent (client : Client) (d : ResourceData) :
  (count isCreateServer (trace (create d client)) <= 1)%nat
  /\ (forall body,
        In (CreateServer body) (trace (create d client)) ->
        body = createRequest client d
        /\ storage (planned d) = []
        /\ Storages (Relations body) = []).
Proof.
  pose proof (create_run_segment client d) as Hk. unfold createRun in Hk.
  destruct (storage (planned d)) as [| s l] eqn:Es; simpl in Hk.
  - split.
    + apply (count_initialSegment isCreateServer) in Hk.
      now rewrite createCalls_one_CreateServer in Hk.
    + intros body Hb.
      assert (Eb : body = createRequest client d).
      { apply (createCalls_CreateServer client d).
        destruct Hk as (rest & ->). apply in_or_app. now left. }
      subst body. repeat split.
  - destruct Hk as (rest & Hk).
    destruct (trace (create d client)); [| discriminate Hk].
    split; [unfold count; simpl; lia |]. intros body [].
Qed.

Lemma create_request_sent_witness :
  In (CreateServer (createRequest okClient dAddressAndNetwork))
    (trace (create dAddressAndNetwork okClient))
  /\ createRequest okClient dAddressAndNetwork
     = createRequest okClient dAddressAndNetwork
  /\ storage (planned dAddressAndNetwork) = []
  /\ Storages (Relations (createRequest okClient dAddressAndNetwork)) = [].
Proof.
  assert (H : In (CreateServer (createRequest okClient dAddressAndNetwork))
                (trace (create dAddressAndNetwork okClient))).
  { vm_compute. right. right. left. reflexivity. }
  split; [exact H |].
  exact (proj2 (create_request_sent okClient dAddressAndNetwork) _ H).
Defined.

(** X10: for a desired state without storage, an address of the wrong IP
    version makes the create path fail before anything is created: after
    the version look-up that disagrees, no further call is issued. *)
Theorem create_rejects_wrong_ip_version (client : Client) (d : ResourceData) :
  storage (planned d) = [] ->
  let v4 := ipv4 (planned d) in
  let v6 := ipv6 (planned d) in
  (v4 <> "" -> resp_version (client [] (GetIPVersion v4)) <> 4 ->
   create d client = ([GetIPVersion v4], Err (NotIPVersion v4 4)))
  /\ (v6 <> "" ->
      (v4 = "" \/ resp_version (client [] (GetIPVersion v4)) = 4) ->
      resp_version (client (versionLookup v4) (GetIPVersion v6)) <> 6 ->
      create d client
      = (versionLookup v4 ++ [GetIPVersion v6], Err (NotIPVersion v6 6))).
Proof.
  intros Es v4 v6. unfold create, resourceGridscaleServerCreate,
    createRequestBody, createPublicIP, versionLookup, GetOk_string.
  cbv zeta. rewrite Es. simpl GetOk_list. cbv iota.
  fold v4. fold v6. split.
  - intros N4 V4. apply String.eqb_neq in N4. apply Z.eqb_neq in V4.
    unfold bind at 1 2 3 4. unfold ret at 1. unfold invoke at 1.
    rewrite N4. cbv beta iota delta [bind invoke negb app fst snd].
    now rewrite V4.
  - intros N6 H4 V6. apply String.eqb_neq in N6. apply Z.eqb_neq in V6.
    destruct H4 as [E4 | E4].
    + apply String.eqb_eq in E4. rewrite E4 in *.
      cbv beta iota delta [bind invoke negb app fst snd ret] in *.
      rewrite N6. now rewrite V6.
    + destruct (v4 =? "")%string eqn:B4.
      * cbv beta iota delta [bind invoke negb app fst snd ret] in *.
        rewrite N6. now rewrite V6.
      * apply Z.eqb_eq in E4.
        cbv beta iota delta [bind invoke negb app fst snd ret] in *.
        rewrite E4. cbv beta iota. rewrite N6. cbv beta iota.
        now rewrite V6.
Qed.

Lemma create_rejects_wrong_ip_version_witness :
  create dWrongIPv4 okClient
  = ([GetIPVersion "6-address"], Err (NotIPVersion "6-address" 4))
  /\ create dWrongIPv6 okClient
     = ([GetIPVersion "4-address"], Err (NotIPVersion "4-address" 6)).
Proof.
  split.
  - apply (proj1 (create_rejects_wrong_ip_version okClient dWrongIPv4
                    eq_refl));
      discriminate.
  - apply (proj2 (create_rejects_wrong_ip_version okClient dWrongIPv6
                    eq_refl));
      [discriminate | now left | discriminate].
Defined.

(** After the creation: the remaining storages, the power state, the read.
    Each call is checked but [StartServer], whose answer is dropped. *)
Lemma postCreate_sound (client : Client) (d : ResourceData) (id : string) :
  sound client createTolerance (GetOk_list (storage (planned d)) = true)
    (createLinkStorages client d id ;;
     (if power (planned d) then _ <- call client (StartServer id) ;; ret tt
      else ret tt) ;;
     resourceGridscaleServerRead client id).
Proof.
  apply sound_bind.
  - unfold createLinkStorages, Get_storage. cbv zeta.
    destruct (GetOk_list (storage (planned d))); [| apply sound_ret].
    apply sound_bind; [now apply sound_SetList_list | intros values].
    repeat sound_step.
  - intros _. apply sound_bind.
    + destruct (power (planned d)); [| apply sound_ret].
      apply sound_dropped_call. intros e. right. eauto.
    + intros _. apply sound_Read. apply createTolerance_GetServer.
Qed.

(** X11: when the create path fails, the error is one of three: the
    version mismatch of a requested address, found before anything but
    look-ups was issued; the error the API answered [CreateServer] with,
    wrapped with the server's name, [CreateServer] being the last call;
    or, unchanged, the error the client answered the last call with. *)
Theorem create_errors (client : Client) (d : ResourceData) (e : error) :
  outcome (create d client) = Err e ->
  let t := trace (create d client) in
  (exists uuid version,
     e = NotIPVersion uuid version /\ Forall (fun c => isLookup c = true) t)
  \/ (exists h cause,
        t = h ++ [CreateServer (createRequest client d)]
        /\ resp_err (client h (CreateServer (createRequest client d)))
           = Some cause
        /\ e = WaitingForCreate (name (planned d)) cause)
  \/ (exists h c, t = h ++ [c] /\ resp_err (client h c) = Some e).
Proof.
  destruct (createRequestBody_emits client d []) as (pre & Ep & Fp).
  destruct (createRequestBody client d []) as [t1 [body | e1 | r]] eqn:R;
    simpl in Ep.
  - pose proof (createRequestBody_ok_storage client d _ _ _ R) as Es.
    destruct (createRequestBody_issues client d Es) as (l & El & _ & Vl).
    rewrite R in El, Vl. simpl in El, Vl.
    destruct (Vl body eq_refl) as [-> ->]. subst t1. subst pre.
    set (request := createRequest client d) in *.
    set (h0 := createLookups d) in *.
    destruct (resp_err (client h0 (CreateServer request)))
      as [cause |] eqn:Ec.
    + assert (Hc : create d client
                   = (h0 ++ [CreateServer request],
                      Err (WaitingForCreate (Name request) cause))).
      { unfold create, resourceGridscaleServerCreate.
        unfold bind at 1. rewrite R.
        unfold bind, invoke. now rewrite Ec. }
      unfold outcome, trace. rewrite Hc. simpl.
      intros H. inversion H; subst. right. left.
      exists h0, cause. auto.
    + set (id := resp_uuid (client h0 (CreateServer request))).
      assert (Hc : create d client
                   = (createLinkStorages client d id ;;
                      (if power (planned d)
                       then _ <- call client (StartServer id) ;; ret tt
                       else ret tt) ;;
                      resourceGridscaleServerRead client id)
                       (h0 ++ [CreateServer request])).
      { unfold create, resourceGridscaleServerCreate.
        unfold bind at 1. rewrite R.
        unfold bind at 1. unfold invoke at 1. now rewrite Ec. }
      unfold outcome, trace. rewrite Hc.
      destruct (postCreate_sound client d id (h0 ++ [CreateServer request]))
        as (l & E & S).
      intros H. rewrite H in S. destruct S as (l0 & c & -> & _ & He & _).
      right. right.
      exists ((h0 ++ [CreateServer request]) ++ l0), c.
      split; [now rewrite E, !app_assoc | exact He].
  - assert (Hc : create d client = (t1, Err e1)).
    { unfold create, resourceGridscaleServerCreate, bind. now rewrite R. }
    unfold outcome, trace. rewrite Hc. simpl.
    intros H. inversion H; subst e1. subst t1.
    destruct (createRequestBody_err client d _ _ R)
      as [[-> | ->] | (h & Eh & He)].
    + left. eexists _, _. split; [reflexivity | exact Fp].
    + left. eexists _, _. split; [reflexivity | exact Fp].
    + right. right. rewrite Eh. eauto.
  - assert (Hc : create d client = (t1, Panic r)).
    { unfold create, resourceGridscaleServerCreate, bind. now rewrite R. }
    unfold outcome. rewrite Hc. simpl. discriminate.
Qed.

Lemma create_errors_witness :
  outcome (create dPlain createFailsClient)
  = Err (WaitingForCreate "web" (ClientError "quota exceeded"))
  /\ ((exists uuid version,
         WaitingForCreate "web" (ClientError "quota exceeded")
         = NotIPVersion uuid version
         /\ Forall (fun c => isLookup c = true)
              (trace (create dPlain createFailsClient)))
      \/ (exists h cause,
            trace (create dPlain createFailsClient)
            = h ++ [CreateServer (createRequest createFailsClient dPlain)]
            /\ resp_err (createFailsClient h
                           (CreateServer
                              (createRequest createFailsClient dPlain)))
               = Some cause
            /\ WaitingForCreate "web" (ClientError "quota exceeded")
               = WaitingForCreate (name (planned dPlain)) cause)
      \/ (exists h c,
            trace (create dPlain createFailsClient) = h ++ [c]
            /\ resp_err (createFailsClient h c)
               = Some (WaitingForCreate "web" (ClientError "quota exceeded")))).
Proof.
  split; [reflexivity |].
  exact (create_errors createFailsClient dPlain _ eq_refl).
Defined.

(** X18: whenever the desired state lists a storage, the create path
    panics at the type assertion of its first loop header: no call is
    issued, nothing is created, and no error is returned. *)
Theorem create_with_storage_panics (client : Client) (d : ResourceData) :
  storage (planned d) <> [] ->
  create d client = ([], Panic notASet)
  /\ createRun client d = [].
Proof.
  intros Hs. split; [now apply create_storage_panic |].
  unfold createRun. destruct (storage (planned d)); [now destruct Hs |].
  reflexivity.
Qed.

Lemma create_with_storage_panics_witness :
  storage (planned dTwoBoot) <> []
  /\ create dTwoBoot createFailsClient = ([], Panic notASet)
  /\ createRun createFailsClient dTwoBoot = [].
Proof.
  assert (H : storage (planned dTwoBoot) <> []) by discriminate.
  split; [exact H |].
  exact (create_with_storage_panics createFailsClient dTwoBoot H).
Defined.

(** * The delete path *)

(** X12: the delete path stops the server first.  When the stop fails,
    also with the 404 of a server that is already gone, [DeleteServer] is
    never issued and the error of the stop is returned; when the stop
    succeeds, [DeleteServer] follows and its answer is the outcome. *)
Theorem delete_stops_then_deletes (client : Client) (d : ResourceData) :
  let stop := StopServer (Id d) in
  let del := DeleteServer (Id d) in
  (forall e, resp_err (client [] stop) = Some e ->
             delete d client = ([stop], Err e))
  /\ (resp_err (client [] stop) = None ->
      trace (delete d client) = [stop; del]
      /\ outcome (delete d client)
         = match resp_err (client [stop] del) with
           | Some e => Err e
           | None => Ok tt
           end).
Proof.
  intros stop del.
  unfold delete, resourceGridscaleServerDelete, trace, outcome.
  cbv beta iota zeta delta [bind call invoke checkErr ret raise app].
  fold stop. fold del. split.
  - intros e E. now rewrite E.
  - intros E. rewrite E. cbv beta iota.
    destruct (resp_err (client [stop] del)); auto.
Qed.

Lemma delete_stops_then_deletes_witness :
  delete dConverged goneClient
  = ([StopServer "srv"], Err (RequestError 404 "not found"))
  /\ delete dConverged okClient
     = ([StopServer "srv"; DeleteServer "srv"], Ok tt).
Proof.
  split.
  - exact (proj1 (delete_stops_then_deletes goneClient dConverged)
             _ eq_refl).
  - destruct (proj2 (delete_stops_then_deletes okClient dConverged) eq_refl)
      as [Ht Ho].
    unfold trace, outcome in *.
    destruct (delete dConverged okClient) as [t r]. simpl in *.
    now subst.
Defined.

(** * The hardware profile of the create request *)

(** X13: the create path tells seven profile names apart: they are sent as
    seven different hardware profiles, none of them the default one, and
    every other string, ["default"] or not, is sent as the default
    profile. *)
Theorem hardwareProfileOf_named :
  (forall p, hardwareProfileOf p = DefaultServerHardware <->
             ~ In p namedProfiles)
  /\ (forall p q, In p namedProfiles -> In q namedProfiles ->
                  hardwareProfileOf p = hardwareProfileOf q -> p = q).
Proof.
  split.
  - intros p. unfold hardwareProfileOf, namedProfiles.
    destruct (String.eqb_spec p "legacy");
    [subst; simpl; split; [discriminate | intros H; exfalso; apply H; auto] |].
    destruct (String.eqb_spec p "nested");
    [subst; simpl; split; [discriminate | intros H; exfalso; apply H; auto] |].
    destruct (String.eqb_spec p "cisco_csr");
    [subst; simpl; split; [discriminate | intros H; exfalso; apply H; auto] |].
    destruct (String.eqb_spec p "sophos_utm");
    [subst; simpl; split; [discriminate | intros H; exfalso; apply H; auto 6] |].
    destruct (String.eqb_spec p "f5_bigip");
    [subst; simpl; split; [discriminate | intros H; exfalso; apply H; auto 7] |].
    destruct (String.eqb_spec p "q35");
    [subst; simpl; split; [discriminate | intros H; exfalso; apply H; auto 8] |].
    destruct (String.eqb_spec p "q35_nested");
    [subst; simpl; split; [discriminate | intros H; exfalso; apply H; auto 9] |].
    split; [| reflexivity]. intros _ H. simpl in H.
    intuition congruence.
  - intros p q Hp Hq E. unfold namedProfiles in *. simpl in Hp, Hq.
    intuition subst; try reflexivity; vm_compute in E; discriminate E.
Qed.

(** * What the read path stores *)

Section ReadRelations.

Import ServerRelations.

Variable GSTime : Type.
Variable GSTimeString : GSTime -> string.

Lemma last_cons_default {A} (x d : A) (l : list A) :
  last (x :: l) d = last l x.
Proof.
  revert x d. induction l as [| y l IH]; intros x d; [reflexivity |].
  change (last (x :: y :: l) d) with (last (y :: l) d).
  now rewrite !IH.
Qed.

Lemma readIPs_from (l : list ServerIPRelationProperties) (v4 v6 : string) :
  fold_left
    (fun '(ipv4, ipv6) ip =>
       let ipv4 := if Family ip =? 4 then IPObjectUUID ip else ipv4 in
       let ipv6 := if Family ip =? 6 then IPObjectUUID ip else ipv6 in
       (ipv4, ipv6))
    l (v4, v6)
  = (last (map IPObjectUUID (filter (fun ip => Family ip =? 4) l)) v4,
     last (map IPObjectUUID (filter (fun ip => Family ip =? 6) l)) v6).
Proof.
  revert v4 v6. induction l as [| ip l IH]; intros v4 v6; [reflexivity |].
  simpl. rewrite IH.
  destruct (Family ip =? 4), (Family ip =? 6); simpl map;
    now rewrite ?last_cons_default.
Qed.

(** X14: after a read, ["ipv4"] is the UUID of the last attached address
    of family 4 and ["ipv6"] the UUID of the last one of family 6, each the
    empty string when the server has no address of that family; addresses
    of any other family are ignored. *)
Theorem readIPs_last_of_family (l : list ServerIPRelationProperties) :
  readIPs l = (lastOfFamily 4 l, lastOfFamily 6 l).
Proof. unfold readIPs, lastOfFamily. apply readIPs_from. Qed.

(** X15: the value the read path hands to [d.Set] for ["network"] lists one
    element for each network of the answer that is not public, in the order
    of the answer; the attribute being a set, what matters once it is stored
    is which elements are listed: an element is listed exactly when it is
    built from a network of the answer that is not public. *)
Theorem readNetworks_hides_public
    (l : list (ServerNetworkRelationProperties GSTime)) :
  readNetworks GSTime GSTimeString l
  = map (networkElement GSTime GSTimeString)
      (filter (fun value => negb (PublicNet GSTime value)) l)
  /\ (forall element,
        In element (readNetworks GSTime GSTimeString l)
        <-> exists value,
              In value l /\ PublicNet GSTime value = false
              /\ element = networkElement GSTime GSTimeString value).
Proof.
  assert (E : readNetworks GSTime GSTimeString l
              = map (networkElement GSTime GSTimeString)
                  (filter (fun value => negb (PublicNet GSTime value)) l)).
  { unfold readNetworks.
    assert (G : forall acc,
               fold_left
                 (fun networks value =>
                    if negb (PublicNet GSTime value)
                    then networks ++ [networkElement GSTime GSTimeString value]
                    else networks) l acc
               = acc ++ map (networkElement GSTime GSTimeString)
                          (filter (fun value => negb (PublicNet GSTime value))
                             l)).
    { induction l as [| value l IH]; intros acc; simpl;
        [now rewrite app_nil_r |].
      rewrite IH. destruct (negb (PublicNet GSTime value)); simpl;
        [now rewrite <- app_assoc | reflexivity]. }
    apply G. }
  split; [exact E |].
  intros element. rewrite E, in_map_iff. split.
  - intros (value & <- & Hv). apply filter_In in Hv as [Hv Hp].
    exists value. apply negb_true_iff in Hp. auto.
  - intros (value & Hv & Hp & ->). exists value. split; [reflexivity |].
    apply filter_In. split; [exact Hv |]. now rewrite Hp.
Qed.

(** X16: after a read, ["isoimage"] is the UUID of the last ISO image of
    the answer, and the empty string when the server has none. *)
Theorem readIsoimage_last (l : list ServerIsoImageRelationProperties) :
  readIsoimage l = last (map IsoObjectUUID l) "".
Proof.
  unfold readIsoimage. generalize "" as v.
  induction l as [| iso l IH]; intros v; [reflexivity |].
  simpl fold_left. rewrite IH. simpl map.
  now rewrite last_cons_default.
Qed.

End ReadRelations.

(** * The validation functions *)

Lemma listed_In (v : string) (values : list string) :
  listed v values = true <-> In v values.
Proof.
  induction values as [| value rest IH]; simpl; [split; [discriminate | tauto] |].
  destruct (String.eqb_spec v value) as [-> | N].
  - split; auto.
  - rewrite IH. split; [auto |]. intros [E | H]; [congruence | exact H].
Qed.

(** X17: both validation functions return no warning, and no error exactly
    when the value is one of the listed ones; otherwise they return one
    error. *)
Theorem validation_accepts_listed (values : list string) (v : string) :
  (fst (validateHardwareProfile values v) = []
   /\ (snd (validateHardwareProfile values v) = [] <-> In v values)
   /\ (length (snd (validateHardwareProfile values v)) <= 1)%nat)
  /\ (fst (validateAvailabilityZone values v) = []
      /\ (snd (validateAvailabilityZone values v) = [] <-> In v values)
      /\ (length (snd (validateAvailabilityZone values v)) <= 1)%nat).
Proof.
  unfold validateHardwareProfile, validateAvailabilityZone. simpl.
  rewrite <- listed_In.
  destruct (listed v values); simpl;
    repeat split; auto; try discriminate; try congruence.
Qed.

Lemma hardwareProfileOf_named_witness :
  In "q35" namedProfiles /\ In "q35_nested" namedProfiles
  /\ hardwareProfileOf "q35" <> hardwareProfileOf "q35_nested".
Proof.
  assert (P : In "q35" namedProfiles) by (simpl; auto 10).
  assert (Q : In "q35_nested" namedProfiles) by (simpl; auto 10).
  split; [exact P |]. split; [exact Q |].
  intros E.
  pose proof (proj2 hardwareProfileOf_named "q35" "q35_nested" P Q E) as N.
  discriminate N.
Defined.

Lemma update_stops_at_first_failure_witness :
  trace (update dConverged goneClient)
  = [UpdateServer "srv" (updateBody (planned dConverged)); StartServer "srv"]
    ++ [GetServer (Id dConverged)]
  /\ resp_err
       (goneClient
          [UpdateServer "srv" (updateBody (planned dConverged));
           StartServer "srv"]
          (GetServer (Id dConverged)))
     = Some (RequestError 404 "not found")
  /\ outcome (update dConverged goneClient) = Ok tt.
Proof.
  split; [reflexivity |]. split; [reflexivity |].
  exact (proj2 (update_stops_at_first_failure goneClient dConverged)
           [UpdateServer "srv" (updateBody (planned dConverged));
            StartServer "srv"]
           "not found" eq_refl eq_refl).
Defined.
